(** * Verification of the FY-4B GHI Level-1 reader ([satpy/readers/ghi_l1.py])

    A shallow embedding of the calibration pipeline ([scale], [apply_lut],
    [HDF_GHI_L1.calibrate] and its helpers) and of the area definition
    builder ([HDF_GHI_L1.get_area_def]).

    Modelling conventions.
    - A number is an integer ([NInt z]: a Python int, or an element or
      scalar of a numpy integer type, with value [z]) or a floating-point
      number ([NFloat x], with value [x]).
    - Floating-point arithmetic is binary64 arithmetic on Rocq's primitive
      floats.  That is what numpy computes when the floating-point
      operands are float64 numbers or Python floats and the others are
      integers, so the floating-point inputs of the arithmetic (the array
      passed to [scale], a floating-point [valid_range], the global
      attributes [get_area_def] multiplies) are float64.  The slope and
      offset of [scale] are Python floats, and the calibration
      coefficient table is a floating-point table: [.item()] turns
      its entries, float32 or float64, into Python floats of the same
      value.  With a float32 array or attribute, or with integer slope
      and offset, numpy computes in another type (float32, or the
      array's own integer type); these inputs are not in the model.
    - Where a number is only selected, compared or copied (the lookup
      table of [apply_lut], the masking at the end of [calibrate]),
      [NFloat x] stands for a floating-point number of value [x] of either
      width.
    - The reader compares and indexes with integer digital numbers and
      does no arithmetic on them.  The only integer arithmetic is on file
      attributes: the [- 1] then [+ 1] on the line and column counts, and
      the sums of line and pixel numbers, which are not used.  It is done
      on unbounded integers; in a fixed-width type the two steps on a
      count cancel in the same way.
    - A string is the sequence of its code points, each below 256.
    - A Python exception is a [Raise] in the [result] monad.
    - A Python [dict] with string keys is a [gmap string _].
    - A dask array is the list of its blocks, every block being the list
      of its elements; a block function that raises makes the operation
      that builds the array raise (the array is modelled by its computed
      contents).
    - In-place mutation of [data.attrs] and [ds_info] is explicit state
      passing: the functions return the updated objects. *)

From stdpp Require Import gmap strings list fin_maps.
From Stdlib Require Import ZArith Floats Ascii Lia Bool.

#[local] Set Warnings "-inexact-float".

Local Open Scope string_scope.
Local Open Scope Z_scope.

(** ** Exceptions *)

Inductive exn : Type :=
| KeyError
| ValueError
| IndexError
| TypeError
| AttributeError
| NotImplementedError.

Inductive result (A : Type) : Type :=
| Ok (a : A)
| Raise (e : exn).

Arguments Ok {A} a.
Arguments Raise {A} e.

#[global] Instance result_ret : MRet result := fun A a => Ok a.
#[global] Instance result_bind : MBind result :=
  fun A B f m => match m with Ok a => f a | Raise e => Raise e end.

Definition is_Ok {A} (r : result A) : Prop := exists a, r = Ok a.

(** [d[k]] on a dict: [KeyError] when the key is absent. *)
Definition getitem {V} (d : gmap string V) (k : string) : result V :=
  match d !! k with
  | Some v => Ok v
  | None => Raise KeyError
  end.

(** ** Numbers *)

(** Conversion of an integer to float64, rounding to nearest even. *)
Definition Z_to_float (z : Z) : float :=
  SF2Prim (binary_normalize prec emax z 0 false).

(** A number: an integer or a floating-point number. *)
Inductive num : Type :=
| NInt (z : Z)
| NFloat (x : float).

Definition to_float (n : num) : float :=
  match n with
  | NInt z => Z_to_float z
  | NFloat x => x
  end.

(** [a * c] and [a + c] for a Python float [c]: an integer [a] is
    converted to float64, and the result is a float64. *)
Definition num_mul_float (a : num) (c : float) : num :=
  NFloat (to_float a * c).

Definition num_add_float (a : num) (c : float) : num :=
  NFloat (to_float a + c).

(** Sum and difference with numpy's promotion: two integers stay integer
    (the counts of [get_area_def]), anything else is computed in
    float64. *)
Definition num_add (a b : num) : num :=
  match a, b with
  | NInt x, NInt y => NInt (x + y)
  | _, _ => NFloat (to_float a + to_float b)
  end.

Definition num_sub (a b : num) : num :=
  match a, b with
  | NInt x, NInt y => NInt (x - y)
  | _, _ => NFloat (to_float a - to_float b)
  end.

(** True division [a / b]: always float64. *)
Definition num_div (a b : num) : num :=
  NFloat (to_float a / to_float b).

Definition num_leb (a b : num) : bool :=
  match a, b with
  | NInt x, NInt y => x <=? y
  | _, _ => (to_float a <=? to_float b)%float
  end.

Definition num_ltb (a b : num) : bool :=
  match a, b with
  | NInt x, NInt y => x <? y
  | _, _ => (to_float a <? to_float b)%float
  end.

Definition num_geb (a b : num) : bool := num_leb b a.
Definition num_gtb (a b : num) : bool := num_ltb b a.

Definition num_is_nan (a : num) : bool :=
  match a with
  | NInt _ => false
  | NFloat x => is_nan x
  end.

(** ** Attribute values and arrays *)

(** The values held by [attrs], [ds_info], [pdict] and [file_content]:
    strings, numeric scalars and one-dimensional numeric arrays. *)
Inductive value : Type :=
| VStr (s : string)
| VNum (n : num)
| VArr (l : list num).

(** An [xarray.DataArray] over a dask array. *)
Record DataArray : Type := mkDataArray {
  data : list (list num);
  dims : list string;
  attrs : gmap string value
}.

(** Element-wise application over every block. *)
Definition amap (f : num -> num) (blocks : list (list num)) : list (list num) :=
  map (map f) blocks.

(** All the elements of an array, block after block. *)
Definition elements (blocks : list (list num)) : list num := concat blocks.

(** ** [scale] *)

(** [ref.clip(min=0)], i.e. [numpy.maximum(ref, 0)]: an element above the
    bound is kept, NaN is kept, and any other element is replaced by the
    bound, so that a negative zero becomes [+0.0]. *)
Definition clip_min0 (a : num) : num :=
  match a with
  | NInt z => NInt (Z.max z 0)
  | NFloat x =>
      NFloat (if (0 <? x)%float then x else if is_nan x then x else 0%float)
  end.

(** [slope] and [offset] are Python floats, so [dn * slope + offset] is
    a float64 array whether [dn] holds integers or float64 numbers. *)
Definition scale (dn : DataArray) (slope offset : float) : DataArray :=
  let ref :=
    amap (fun x => num_add_float (num_mul_float x slope) offset) (data dn) in
  let ref := amap clip_min0 ref in
  mkDataArray ref (dims dn) (attrs dn).

(** ** [apply_lut] *)

(** Integer indexing of a one-dimensional numpy array: a negative index
    counts from the end, an index outside [-len, len) raises. *)
Definition np_getitem {A} (l : list A) (i : Z) : result A :=
  let n := Z.of_nat (length l) in
  let j := if i <? 0 then n + i else i in
  if ((0 <=? j) && (j <? n))%bool then
    match l !! Z.to_nat j with
    | Some x => Ok x
    | None => Raise IndexError
    end
  else Raise IndexError.

(** [f] applied to every element, stopping at the first exception. *)
Fixpoint traverse {A B} (f : A -> result B) (l : list A) : result (list B) :=
  match l with
  | [] => Ok []
  | x :: xs => y ← f x; ys ← traverse f xs; Ok (y :: ys)
  end.

(** [np.append(lut, np.nan)]: the flattened table as float64, then NaN. *)
Definition np_append_nan (lut : DataArray) : list float :=
  map to_float (elements (data lut)) ++ [nan].

(** One element of [da.where(data > N, N - 1, data)]. *)
Definition where_gt (N : Z) (x : num) : num :=
  match x with
  | NInt z => if N <? z then NInt (N - 1) else NInt z
  | NFloat f => NFloat (if (Z_to_float N <? f)%float then Z_to_float (N - 1) else f)
  end.

(** One element of [lut[block]]: only integers index an array. *)
Definition getitem_elem (lut : list float) (x : num) : result num :=
  match x with
  | NInt z => y ← np_getitem lut z; Ok (NFloat y)
  | NFloat _ => Raise IndexError
  end.

Definition _getitem (block : list num) (lut : list float) : result (list num) :=
  traverse (getitem_elem lut) block.

(** [array.map_blocks(f, ...)]: [f] on every block. *)
Definition map_blocks (f : list num -> result (list num)) (blocks : list (list num))
  : result (list (list num)) :=
  traverse f blocks.

Definition apply_lut (d : DataArray) (lut : DataArray) : result DataArray :=
  let lut := np_append_nan lut in
  let shape0 := Z.of_nat (length lut) in
  let d_data := amap (where_gt shape0) (data d) in
  res ← map_blocks (fun block => _getitem block lut) d_data;
  Ok (mkDataArray res (dims d) (attrs d)).

(** What [apply_lut] computes for one digital number [v], given the table
    [l] before NaN is appended. *)
Definition lut_elem (l : list float) (v : Z) : result num :=
  getitem_elem (l ++ [nan]) (where_gt (Z.of_nat (length (l ++ [nan]))) (NInt v)).

(** ** The file handler *)

Definition cal_coef : string := "Calibration/CALIBRATION_COEF(SCALE+OFFSET)".

(** The calibration coefficient dataset: a two-dimensional floating-point
    table, one row per channel, with its dimension names and attributes. *)
Record CoefTable : Type := mkCoefTable {
  coef_rows : list (list float);
  coef_dims : list string;
  coef_attrs : gmap string value
}.

(** The table as an array, one row per block. *)
Definition coef_array (t : CoefTable) : DataArray :=
  mkDataArray (map (map NFloat) (coef_rows t)) (coef_dims t) (coef_attrs t).

(** What the handler holds of the HDF file: the global attributes (keys
    [/attr/...] of [file_content]), the datasets [self.get] returns, the
    calibration coefficient dataset (stored in the file under the key
    [cal_coef]), and the fields parsed from the file name. *)
Record HDF_GHI_L1 : Type := mkHandler {
  file_content : gmap string value;
  datasets : gmap string DataArray;
  calibration_coef : option CoefTable;
  filename_info : gmap string string
}.

(** [self.get(key)]: the dataset, or [None]. *)
Definition get (self : HDF_GHI_L1) (key : string) : option DataArray :=
  if String.eqb key cal_coef then coef_array <$> calibration_coef self
  else datasets self !! key.

(** ** Python builtins used by [calibrate] *)

(** [s[-2:]]: the last two characters, or all of a shorter string. *)
Definition last2 (s : string) : string :=
  String.substring (String.length s - 2)%nat 2%nat s.

(** The blanks [int] skips around a number: tab, line feed, vertical
    tab, form feed, carriage return and space, and the two blanks above
    127, next line and no-break space. *)
Definition is_space (a : ascii) : bool :=
  let n := nat_of_ascii a in
  ((9 <=? n)%nat && (n <=? 13)%nat || (n =? 32)%nat
   || (n =? 133)%nat || (n =? 160)%nat)%bool.

Definition digit_of (a : ascii) : option Z :=
  let n := Z.of_nat (nat_of_ascii a) in
  if ((48 <=? n) && (n <=? 57))%bool then Some (n - 48) else None.

Fixpoint drop_spaces (l : list ascii) : list ascii :=
  match l with
  | [] => []
  | a :: r => if is_space a then drop_spaces r else l
  end.

Definition strip (l : list ascii) : list ascii :=
  rev (drop_spaces (rev (drop_spaces l))).

(** Decimal digits after a first digit; one underscore may stand between
    two digits. *)
Fixpoint parse_digits (acc : Z) (l : list ascii) : option Z :=
  match l with
  | [] => Some acc
  | a :: r =>
      match digit_of a with
      | Some d => parse_digits (10 * acc + d) r
      | None =>
          if Ascii.eqb a "_"%char then
            match r with
            | b :: r' =>
                match digit_of b with
                | Some d => parse_digits (10 * acc + d) r'
                | None => None
                end
            | [] => None
            end
          else None
      end
  end.

Definition parse_unsigned (l : list ascii) : option Z :=
  match l with
  | a :: r =>
      match digit_of a with
      | Some d => parse_digits d r
      | None => None
      end
  | [] => None
  end.

(** [int(s)]: surrounding blanks, an optional sign, decimal digits;
    [ValueError] otherwise.  [calibrate] applies it to the last two
    characters of the storage key. *)
Definition py_int (s : string) : result Z :=
  let l := strip (String.list_ascii_of_string s) in
  let r :=
    match l with
    | a :: r =>
        if Ascii.eqb a "+"%char then parse_unsigned r
        else if Ascii.eqb a "-"%char then Z.opp <$> parse_unsigned r
        else parse_unsigned l
    | [] => None
    end in
  match r with
  | Some z => Ok z
  | None => Raise ValueError
  end.

(** The elements [min(v)] and [max(v)] go through.  A numpy scalar is not
    iterable.  A string iterates over its characters: the empty one has no
    minimum, and the minimum of another is a character, which the
    comparison with the data then rejects; the model reports that
    [TypeError] here. *)
Definition value_iter (v : value) : result (list num) :=
  match v with
  | VArr l => Ok l
  | VNum _ => Raise TypeError
  | VStr s => if String.eqb s "" then Ok [] else Raise TypeError
  end.

(** [min(v)] and [max(v)]: the first element is kept unless a later one
    compares strictly below (above) it; an empty sequence raises. *)
Definition py_min (v : value) : result num :=
  l ← value_iter v;
  match l with
  | [] => Raise ValueError
  | x :: xs => Ok (fold_left (fun m y => if num_ltb y m then y else m) xs x)
  end.

Definition py_max (v : value) : result num :=
  l ← value_iter v;
  match l with
  | [] => Raise ValueError
  | x :: xs => Ok (fold_left (fun m y => if num_gtb y m then y else m) xs x)
  end.

(** [v * c] for a Python float [c]: a string cannot be multiplied by a
    float. *)
Definition value_mul (v : value) (c : float) : result value :=
  match v with
  | VNum n => Ok (VNum (num_mul_float n c))
  | VArr l => Ok (VArr (map (fun n => num_mul_float n c) l))
  | VStr _ => Raise TypeError
  end.

(** [v * slope + offset] for two Python floats. *)
Definition value_affine (v : value) (slope offset : float) : result value :=
  match v with
  | VNum n => Ok (VNum (num_add_float (num_mul_float n slope) offset))
  | VArr l =>
      Ok (VArr (map (fun n => num_add_float (num_mul_float n slope) offset) l))
  | VStr _ => Raise TypeError
  end.

(** [v.item()]: the Python scalar of a numpy scalar or of an array of one
    element. *)
Definition item (v : value) : result value :=
  match v with
  | VNum n => Ok (VNum n)
  | VArr [n] => Ok (VNum n)
  | VArr _ => Raise ValueError
  | VStr _ => Raise AttributeError
  end.

Definition set_attr (d : DataArray) (k : string) (v : value) : DataArray :=
  mkDataArray (data d) (dims d) (<[k := v]> (attrs d)).

(** ** [HDF_GHI_L1.calibrate] and its helpers *)

(** [table[i, j].values.item()] on the coefficient table: a Python
    float. *)
Definition table_item (rows : list (list float)) (i j : Z) : result float :=
  row ← np_getitem rows i; np_getitem row j.

(** The rows of [self.get(cal_coef)]; [None] has no shape. *)
Definition get_table (self : HDF_GHI_L1) : result (list (list float)) :=
  match calibration_coef self with
  | Some t => Ok (coef_rows t)
  | None => Raise AttributeError
  end.

(** [data *= 100] on the array [scale] returned: its elements are
    float64, and so is the product with the integer. *)
Definition imul (d : DataArray) (c : float) : DataArray :=
  mkDataArray (amap (fun x => num_mul_float x c) (data d)) (dims d) (attrs d).

(** The channel index [calibrate_to_reflectance] uses: 0 for a table of
    one row, the requested index otherwise. *)
Definition effective_channel (rows : list (list float)) (channel_index : Z) : Z :=
  if Z.of_nat (length rows) =? 1 then 0 else channel_index.

Definition calibrate_to_reflectance (self : HDF_GHI_L1) (d : DataArray)
    (channel_index : Z) (ds_info : gmap string value)
  : result (DataArray * gmap string value) :=
  rows ← get_table self;
  let channel_index := effective_channel rows channel_index in
  sf ← table_item rows channel_index 0;
  let d := set_attr d "scale_factor" (VNum (NFloat sf)) in
  off ← table_item rows channel_index 1;
  let d := set_attr d "add_offset" (VNum (NFloat off)) in
  let d := scale d sf off in
  let d := imul d 100 in
  vr ← getitem (attrs d) "valid_range";
  vr ← value_affine vr sf off;
  let ds_info := <["valid_range" := vr]> ds_info in
  (* the range is float64 by now, and so is its product with 100 *)
  vr ← value_mul vr 100;
  let ds_info := <["valid_range" := vr]> ds_info in
  Ok (d, ds_info).

Section Calibrate.

(** Python's formatting of a value that is not a string, as an f-string
    does it: the text of a number or of an array.  The model leaves the
    text open. *)
Variable format_value : value -> string.

(** The key of the lookup table: [ds_info.get("lut_key", ds_name)] after
    the [Calibration/] prefix.  A string is put there as it is, any other
    value as its text. *)
Definition lut_key_of (ds_info : gmap string value) (ds_name : string) : string :=
  match ds_info !! "lut_key" with
  | None => "Calibration/" +:+ ds_name
  | Some (VStr s) => "Calibration/" +:+ s
  | Some v => "Calibration/" +:+ format_value v
  end.

Definition calibrate_to_bt (self : HDF_GHI_L1) (d : DataArray)
    (ds_info : gmap string value) (ds_name : string)
  : result (DataArray * gmap string value) :=
  let lut_key := lut_key_of ds_info ds_name in
  match get self lut_key with
  | None => Raise AttributeError
  | Some lut =>
      d ← apply_lut d lut;
      vr ← getitem (attrs lut) "valid_range";
      Ok (d, <["valid_range" := vr]> ds_info)
  end.

(** [calibration is None] *)
Definition calibration_is_None (c : option value) : bool :=
  match c with
  | None => true
  | Some _ => false
  end.

(** [calibration == s], for the value [ds_info.get('calibration')]. *)
Definition calibration_is (c : option value) (s : string) : bool :=
  match c with
  | Some (VStr s') => String.eqb s' s
  | _ => false
  end.

(** One element of [data.where((data >= lo) & (data <= hi))]: kept with
    its value, as a floating-point number, or replaced by NaN.  (xarray
    stores the result of masking integers of at most 16 bits as float32
    and of wider ones as float64; a float array keeps its type.) *)
Definition where_in_range (lo hi : num) (x : num) : num :=
  if (num_geb x lo && num_leb x hi)%bool then NFloat (to_float x) else NFloat nan.

(** The range limits at the end of [calibrate]. *)
Definition apply_range_limits (d : DataArray) : result DataArray :=
  vr ← getitem (attrs d) "valid_range";
  lo ← py_min vr;
  hi ← py_max vr;
  Ok (mkDataArray (amap (where_in_range lo hi) (data d)) (dims d) (attrs d)).

(** The fill value attached for counts at the end of [calibrate]. *)
Definition attach_fill_value (d : DataArray) : result DataArray :=
  fv ← getitem (attrs d) "FillValue";
  fv ← item fv;
  Ok (set_attr d "_FillValue" fv).

(** The transform [calibrate] selects from the calibration kind (the
    [if]/[elif] chain): the array and the descriptor before the range
    limits or the fill value are applied. *)
Definition calibrate_transform (self : HDF_GHI_L1) (d : DataArray)
    (ds_info : gmap string value) (ds_name file_key : string)
  : result (DataArray * gmap string value) :=
  let calibration := ds_info !! "calibration" in
  if (calibration_is calibration "counts" || calibration_is_None calibration)%bool then
    units ← getitem ds_info "units";
    let d := set_attr d "units" units in
    vr ← getitem (attrs d) "valid_range";
    Ok (d, <["valid_range" := vr]> ds_info)
  else if calibration_is calibration "reflectance" then
    n ← py_int (last2 file_key);
    let channel_index := n - 1 in
    calibrate_to_reflectance self d channel_index ds_info
  else if calibration_is calibration "brightness_temperature" then
    calibrate_to_bt self d ds_info ds_name
  else if calibration_is calibration "radiance" then
    Raise NotImplementedError
  else Ok (d, ds_info).

Definition calibrate (self : HDF_GHI_L1) (d : DataArray)
    (ds_info : gmap string value) (ds_name file_key : string)
  : result (DataArray * gmap string value) :=
  let calibration := ds_info !! "calibration" in
  '(d, ds_info) ← calibrate_transform self d ds_info ds_name file_key;
  if negb (calibration_is calibration "counts") then
    d ← apply_range_limits d;
    Ok (d, ds_info)
  else
    d ← attach_fill_value d;
    Ok (d, ds_info).

End Calibrate.

(** ** [HDF_GHI_L1.get_area_def] *)

(** info of 500 m, 1 km, 2 km and 4 km data *)
Definition RESOLUTION_LIST : list Z := [250; 500; 1000; 2000].
Definition _COFF_list : list float := [21982.5; 10991.5; 5495.5; 2747.5]%float.
Definition _CFAC_list : list float :=
  [163730198.0; 81865099.0; 40932549.0; 20466274.0]%float.
Definition _LOFF_list : list float := [21982.5; 10991.5; 5495.5; 2747.5]%float.
Definition _LFAC_list : list float :=
  [163730198.0; 81865099.0; 40932549.0; 20466274.0]%float.
Definition _NLINE_list : list float :=
  [43960 / 2; 21980 / 2; 10990 / 2; 5495 / 2]%float.
Definition _NCOLS_list : list float :=
  [43960 / 2; 21980 / 2; 10990 / 2; 5495 / 2]%float.

(** [t[i]] on a tuple of four, for a constant index [i] below 4. *)
Definition tuple4_get {A} (t : A * A * A * A) (i : nat) : A :=
  let '(t0, t1, t2, t3) := t in
  match i with
  | O => t0
  | 1%nat => t1
  | 2%nat => t2
  | _ => t3
  end.

(** [l.index(x)]: the first position of [x], [ValueError] when absent. *)
Fixpoint list_index (l : list Z) (x : Z) : result Z :=
  match l with
  | [] => Raise ValueError
  | y :: r => if y =? x then Ok 0 else i ← list_index r x; Ok (i + 1)
  end.

(** The key of an area request. *)
Record DataID : Type := mkDataID {
  name : string;
  resolution : Z
}.

(** An arithmetic operator between two values, with numpy's broadcasting
    of one-dimensional arrays.  A string operand ends in [TypeError] in
    every use the reader makes of these operators. *)
Definition value_binop (f : num -> num -> num) (a b : value) : result value :=
  match a, b with
  | VNum x, VNum y => Ok (VNum (f x y))
  | VNum x, VArr l => Ok (VArr (map (f x) l))
  | VArr l, VNum y => Ok (VArr (map (fun x => f x y) l))
  | VArr l1, VArr l2 =>
      if (length l1 =? length l2)%nat then Ok (VArr (zip_with f l1 l2))
      else match l1, l2 with
           | [x], _ => Ok (VArr (map (f x) l2))
           | _, [y] => Ok (VArr (map (fun x => f x y) l1))
           | _, _ => Raise ValueError
           end
  | _, _ => Raise TypeError
  end.

(** [v[i]] for a constant index.  The corner points are numeric arrays;
    a numpy scalar has no elements, and a string is reported as
    [TypeError], which is what projecting one of its characters ends in. *)
Definition value_getitem (v : value) (i : Z) : result num :=
  match v with
  | VArr l => np_getitem l i
  | VNum _ => Raise IndexError
  | VStr _ => Raise TypeError
  end.

(** The four corner points and the line and pixel numbers read at the
    start of [get_area_def]; [mid_line] and [mid_col] are computed and
    not used. *)
Definition read_corners (self : HDF_GHI_L1)
  : result ((num * num) * (num * num) * (num * num) * (num * num)) :=
  c_lats ← getitem (file_content self) "/attr/Corner-Point Latitudes";
  c_lons ← getitem (file_content self) "/attr/Corner-Point Longitudes";
  lon0 ← value_getitem c_lons 0; lat0 ← value_getitem c_lats 0;
  lon1 ← value_getitem c_lons 1; lat1 ← value_getitem c_lats 1;
  lon2 ← value_getitem c_lons 2; lat2 ← value_getitem c_lats 2;
  lon3 ← value_getitem c_lons 3; lat3 ← value_getitem c_lats 3;
  init_line ← getitem (file_content self) "/attr/Begin Line Number";
  end_line ← getitem (file_content self) "/attr/End Line Number";
  init_col ← getitem (file_content self) "/attr/Begin Pixel Number";
  end_col ← getitem (file_content self) "/attr/End Pixel Number";
  s ← value_binop num_add init_line end_line;
  mid_line ← value_binop num_div s (VNum (NFloat 2));
  s ← value_binop num_add init_col end_col;
  mid_col ← value_binop num_div s (VNum (NFloat 2));
  Ok ((lon0, lat0), (lon1, lat1), (lon2, lat2), (lon3, lat3)).

Definition b250 : list string := ["C01"].
Definition b500 : list string := ["C02"; "C03"; "C04"; "C05"; "C06"].

(** [name in l] *)
Definition name_in (s : string) (l : list string) : bool :=
  existsb (String.eqb s) l.

Section Collaborators.

(** The collaborators of [get_area_def] that are not part of the reader:
    Python's [float] on a string, [pyproj.Proj] (a projection built from
    a parameter dictionary, then applied to a longitude and a latitude)
    and the area constructor [get_area_definition]. *)
Variable AreaDefinition : Type.
Variable float_of_string : string -> result float.
Variable Proj : gmap string value -> result (num -> num -> float * float).
Variable get_area_definition :
  gmap string value -> float * float * float * float -> result AreaDefinition.

(** [float(v)] *)
Definition py_float (v : value) : result float :=
  match v with
  | VNum n => Ok (to_float n)
  | VArr [n] => Ok (to_float n)
  | VArr _ => Raise TypeError
  | VStr s => float_of_string s
  end.

(** The area-parameter dictionary [pdict], as it stands when the
    projection is built. *)
Definition build_pdict (self : HDF_GHI_L1) (key : DataID) : result (gmap string value) :=
  let res := resolution key in
  let pdict : gmap string value := ∅ in
  i ← list_index RESOLUTION_LIST res;
  coff ← np_getitem _COFF_list i;
  let pdict := <["coff" := VNum (NFloat coff)]> pdict in
  i ← list_index RESOLUTION_LIST res;
  loff ← np_getitem _LOFF_list i;
  let pdict := <["loff" := VNum (NFloat (- loff))]> pdict in
  i ← list_index RESOLUTION_LIST res;
  cfac ← np_getitem _CFAC_list i;
  let pdict := <["cfac" := VNum (NFloat cfac)]> pdict in
  i ← list_index RESOLUTION_LIST res;
  lfac ← np_getitem _LFAC_list i;
  let pdict := <["lfac" := VNum (NFloat lfac)]> pdict in
  v ← getitem (file_content self) "/attr/Semi_major_axis";
  a ← value_mul v 1000;
  let pdict := <["a" := a]> pdict in
  v ← getitem (file_content self) "/attr/Semi_minor_axis";
  b ← value_mul v 1000;
  let pdict := <["b" := b]> pdict in
  v ← getitem (file_content self) "/attr/NOMSatHeight";
  h ← value_mul v 1000;
  let pdict := <["h" := h]> pdict in
  v ← getitem (file_content self) "/attr/NOMSubSatLon";
  ssp_lon ← py_float v;
  let pdict := <["ssp_lon" := VNum (NFloat ssp_lon)]> pdict in
  nlines ← getitem (file_content self) "/attr/RegLength";
  let pdict := <["nlines" := nlines]> pdict in
  ncols ← getitem (file_content self) "/attr/RegWidth";
  let pdict := <["ncols" := ncols]> pdict in
  v ← getitem (file_content self) "/attr/dSamplingAngle";
  col_step_ang ← value_mul v 1e-6;
  let pdict := <["col_step_ang" := col_step_ang]> pdict in
  v ← getitem (file_content self) "/attr/dSteppingAngle";
  line_step_ang ← value_mul v 1e-6;
  let pdict := <["line_step_ang" := line_step_ang]> pdict in
  let pdict := <["scandir" := VStr "N2S"]> pdict in
  obs ← getitem (filename_info self) "observation_type";
  let pdict := <["a_desc" := VStr ("AGRI " +:+ obs +:+ " area")]> pdict in
  pdict ←
    (if name_in (name key) b250 then
       obs ← getitem (filename_info self) "observation_type";
       Ok (<["p_id" := VStr "FY-4A, 250m"]> (<["a_name" := VStr (obs +:+ "_250m")]> pdict))
     else if name_in (name key) b500 then
       obs ← getitem (filename_info self) "observation_type";
       Ok (<["p_id" := VStr "FY-4A, 500m"]> (<["a_name" := VStr (obs +:+ "_500m")]> pdict))
     else
       obs ← getitem (filename_info self) "observation_type";
       Ok (<["p_id" := VStr "FY-4A, 2000m"]> (<["a_name" := VStr (obs +:+ "_2000m")]> pdict)));
  nlines ← getitem pdict "nlines";
  nlines ← value_binop num_sub nlines (VNum (NInt 1));
  let pdict := <["nlines" := nlines]> pdict in
  ncols ← getitem pdict "ncols";
  ncols ← value_binop num_sub ncols (VNum (NInt 1));
  let pdict := <["ncols" := ncols]> pdict in
  Ok pdict.

(** [proj_dict] *)
Definition build_proj_dict (pdict : gmap string value) : result (gmap string value) :=
  a ← getitem pdict "a";
  lon_0 ← getitem pdict "ssp_lon";
  h ← getitem pdict "h";
  a' ← getitem pdict "a";
  b ← getitem pdict "b";
  q ← value_binop num_div a' b;
  q ← value_binop num_sub q (VNum (NInt 1));
  rf ← value_binop num_div (VNum (NInt 1)) q;
  Ok (<["sweep" := VStr "x"]> (<["units" := VStr "m"]> (<["proj" := VStr "geos"]>
     (<["rf" := rf]> (<["h" := h]> (<["lon_0" := lon_0]> (<["a" := a]> ∅))))))).

(** The two arguments [get_area_def] passes to [get_area_definition]:
    the final [pdict] and the corner tuple. *)
Definition area_def_args (self : HDF_GHI_L1) (key : DataID)
  : result (gmap string value * (float * float * float * float)) :=
  '(p1, p2, p3, p4) ← read_corners self;
  pdict ← build_pdict self key;
  proj_dict ← build_proj_dict pdict;
  p ← Proj proj_dict;
  let o1 := p (fst p1) (snd p1) in
  let o2 := p (fst p2) (snd p2) in
  let o3 := p (fst p3) (snd p3) in
  let o4 := p (fst p4) (snd p4) in
  let lons := (fst o1, fst o2, fst o3, fst o4) in
  let lats := (snd o1, snd o2, snd o3, snd o4) in
  nlines ← getitem pdict "nlines";
  nlines ← value_binop num_add nlines (VNum (NInt 1));
  let pdict := <["nlines" := nlines]> pdict in
  ncols ← getitem pdict "ncols";
  ncols ← value_binop num_add ncols (VNum (NInt 1));
  let pdict := <["ncols" := ncols]> pdict in
  Ok (pdict, (tuple4_get lons 2, tuple4_get lats 3, tuple4_get lons 3, tuple4_get lats 2)).

Definition get_area_def (self : HDF_GHI_L1) (key : DataID) : result AreaDefinition :=
  '(pdict, corners) ← area_def_args self key;
  get_area_definition pdict corners.

End Collaborators.

(** ** A small file, used to run the model *)

Module Sample.

(** A raw channel: two blocks of 12-bit digital numbers, 65535 being the
    fill value. *)
Definition raw_attrs : gmap string value :=
  <["valid_range" := VArr [NInt 0; NInt 4095]]>
    (<["FillValue" := VNum (NInt 65535)]> (<["units" := VStr "NUL"]> ∅)).

Definition raw : DataArray :=
  mkDataArray [[NInt 100; NInt 5000]; [NInt 4095; NInt 65535]] ["y"; "x"] raw_attrs.

(** Slope and offset of two channels. *)
Definition coef_table : CoefTable :=
  mkCoefTable [[0.5; 0]; [0.0009765625; 0]]%float ["channel"; "coef"] ∅.

(** A lookup table of four brightness temperatures. *)
Definition lut : DataArray :=
  mkDataArray [[NFloat 100; NFloat 180.5; NFloat 250; NFloat 320]] ["dn"]
    (<["valid_range" := VArr [NInt 150; NInt 350]]> ∅).

(** Digital numbers for that table: 5 is its length plus one. *)
Definition raw_ir : DataArray :=
  mkDataArray [[NInt 0; NInt 3]; [NInt 5; NInt 65535]] ["y"; "x"] raw_attrs.

Definition global_attrs (reg_length : Z) : gmap string value :=
  <["/attr/Corner-Point Latitudes" :=
      VArr [NFloat 50; NFloat 50; NFloat 10; NFloat 12]]>
  (<["/attr/Corner-Point Longitudes" :=
      VArr [NFloat 80; NFloat 130; NFloat 82; NFloat 128]]>
  (<["/attr/Begin Line Number" := VNum (NInt 0)]>
  (<["/attr/End Line Number" := VNum (NInt 3999)]>
  (<["/attr/Begin Pixel Number" := VNum (NInt 0)]>
  (<["/attr/End Pixel Number" := VNum (NInt 3999)]>
  (<["/attr/Semi_major_axis" := VNum (NFloat 6378.137)]>
  (<["/attr/Semi_minor_axis" := VNum (NFloat 6356.7523)]>
  (<["/attr/NOMSatHeight" := VNum (NFloat 35786)]>
  (<["/attr/NOMSubSatLon" := VNum (NFloat 133)]>
  (<["/attr/RegLength" := VNum (NInt reg_length)]>
  (<["/attr/RegWidth" := VNum (NInt 4000)]>
  (<["/attr/dSamplingAngle" := VNum (NFloat 14)]>
  (<["/attr/dSteppingAngle" := VNum (NFloat 14)]> ∅))))))))))))).

Definition file_with (reg_length : Z) : HDF_GHI_L1 :=
  mkHandler (global_attrs reg_length) (<["Calibration/C07" := lut]> ∅)
    (Some coef_table) (<["observation_type" := "REGX"]> ∅).

Definition file : HDF_GHI_L1 := file_with 4000.

Definition ds_info_of (calibration units : string) : gmap string value :=
  <["calibration" := VStr calibration]> (<["units" := VStr units]> ∅).

(** The text of the values that are not strings, for running
    [calibrate]. *)
Definition format_value (v : value) : string := "?".

(** The collaborators, for running [get_area_def]: a projection that
    scales degrees, and a constructor that keeps its two arguments. *)
Definition AreaDefinition : Type :=
  gmap string value * (float * float * float * float).

Definition float_of_string (s : string) : result float := Raise ValueError.

Definition Proj (proj_dict : gmap string value)
  : result (num -> num -> float * float) :=
  Ok (fun lon lat => (to_float lon * 1000, to_float lat * 2000)%float).

Definition get_area_definition (pdict : gmap string value)
    (corners : float * float * float * float) : result AreaDefinition :=
  Ok (pdict, corners).

End Sample.

(** ** Running the model *)

(** The value of a result that is known to be [Ok]. *)
Definition from_Ok {A} (d : A) (r : result A) : A :=
  match r with
  | Ok a => a
  | Raise _ => d
  end.

Definition is_Ok_b {A} (r : result A) : bool :=
  match r with
  | Ok _ => true
  | Raise _ => false
  end.

Module Run.

Import Sample.

Definition no_array : DataArray := mkDataArray [] [] ∅.

Definition ds_reflectance : gmap string value := ds_info_of "reflectance" "%".

(** [calibrate] and [calibrate_to_reflectance] on the sample channel. *)
Definition reflectance : DataArray * gmap string value :=
  from_Ok (no_array, ∅)
    (calibrate format_value file raw ds_reflectance "C02" "Data/NOMChannel02").


(** The arguments of the area constructor for channel C02 at 500 m, for
    a file of [reg_length] lines. *)
Definition area_args (reg_length : Z)
  : gmap string value * (float * float * float * float) :=
  from_Ok (∅, (0, 0, 0, 0)%float)
    (area_def_args float_of_string Proj (file_with reg_length) (mkDataID "C02" 500)).

(** The arguments of the area constructor for channel C01 at the
    resolution [res]. *)
Definition area_args_at (res : Z)
  : gmap string value * (float * float * float * float) :=
  from_Ok (∅, (0, 0, 0, 0)%float)
    (area_def_args float_of_string Proj file (mkDataID "C01" res)).

End Run.

(** ** [HDF_GHI_L1.adjust_attrs] and [HDF_GHI_L1.get_dataset] *)

Definition PLATFORM_NAMES : gmap string string :=
  <["FY4B" := "FY-4B"]> (<["FY4C" := "FY-4C"]> ∅).

Definition CHANS_ID : string := "NOMChannel".
Definition SAT_ID : string := "NOMSatellite".
Definition SUN_ID : string := "NOMSun".

(** [sub in s] for two strings: [sub] occurs in [s]. *)
Fixpoint contains (sub s : string) : bool :=
  (String.prefix sub s
   || match s with
      | EmptyString => false
      | String _ s' => contains sub s'
      end)%bool.

(** [s.lower()], character by character: the capital letters [A] to
    [Z], and those from 192 to 222 except the multiplication sign. *)
Definition lower_ascii (a : ascii) : ascii :=
  let n := nat_of_ascii a in
  if ((65 <=? n)%nat && (n <=? 90)%nat
      || (192 <=? n)%nat && (n <=? 222)%nat && negb (n =? 215)%nat)%bool
  then ascii_of_nat (n + 32) else a.

Fixpoint lower (s : string) : string :=
  match s with
  | EmptyString => EmptyString
  | String a s' => String (lower_ascii a) (lower s')
  end.

(** The attributes after [adjust_attrs]: the values the reader handles,
    and the dictionary it stores under [orbital_parameters]. *)
Inductive avalue : Type :=
| AVal (v : value)
| ADict (m : gmap string value).

(** The array [get_dataset] returns. *)
Record Dataset : Type := mkDataset {
  ds_data : list (list num);
  ds_dims : list string;
  ds_attrs : gmap string avalue
}.

(** [PLATFORM_NAMES.get(code, code)]: a string is looked up, a numpy scalar
    is hashable and not a key, an array is not hashable. *)
Definition platform_name_of (code : value) : result value :=
  match code with
  | VStr s =>
      match PLATFORM_NAMES !! s with
      | Some n => Ok (VStr n)
      | None => Ok code
      end
  | VNum _ => Ok code
  | VArr _ => Raise TypeError
  end.

(** [v.lower()]: only a string has the method. *)
Definition value_lower (v : value) : result value :=
  match v with
  | VStr s => Ok (VStr (lower s))
  | VNum _ | VArr _ => Raise AttributeError
  end.

(** [d1.update(d2)]: the entries of [d2] replace those of [d1]. *)
Definition dict_update {V} (d1 d2 : gmap string V) : gmap string V := d2 ∪ d1.

(** The attributes of [data] once [adjust_attrs] has run. *)
Definition adjust_attrs (self : HDF_GHI_L1) (d : DataArray)
    (ds_info : gmap string value) : result Dataset :=
  code ← getitem (file_content self) "/attr/Satellite Name";
  code' ← getitem (file_content self) "/attr/Satellite Name";
  satname ← platform_name_of code;
  sensor ← getitem (file_content self) "/attr/Sensor Identification Code";
  sensor ← value_lower sensor;
  lat ← getitem (file_content self) "/attr/NOMSubSatLat";
  lat ← item lat;
  lon ← getitem (file_content self) "/attr/NOMSubSatLon";
  lon ← item lon;
  alt ← getitem (file_content self) "/attr/NOMSatHeight";
  alt ← item alt;
  let orbital : gmap string value :=
    <["satellite_nominal_altitude" := alt]>
      (<["satellite_nominal_longitude" := lon]>
         (<["satellite_nominal_latitude" := lat]> ∅)) in
  let new : gmap string avalue :=
    <["orbital_parameters" := ADict orbital]>
      (<["sensor" := AVal sensor]> (<["platform_name" := AVal satname]> ∅)) in
  let a := dict_update (AVal <$> attrs d) new in
  let a := dict_update a (AVal <$> ds_info) in
  (* remove attributes that could be confusing later *)
  let a := delete "FillValue" a in
  let a := delete "Intercept" a in
  let a := delete "Slope" a in
  Ok (mkDataset (data d) (dims d) a).

(** The storage key [get_dataset] reads: the [Data/] group for a channel,
    the [Navigation/] group for a sun or satellite angle. *)
Definition resolve_file_key (file_key : string) : string :=
  if contains CHANS_ID file_key then "Data/" +:+ file_key
  else if (contains SUN_ID file_key || contains SAT_ID file_key)%bool
       then "Navigation/" +:+ file_key
       else file_key.

Section GetDataset.

(** [data.rename({old_y: 'y', old_x: 'x'})] is xarray's: the model leaves
    open which renamings it accepts and what it returns. *)
Variable rename : DataArray -> list (string * string) -> result DataArray.

(** Python's formatting of a value that is not a string. *)
Variable format_value : value -> string.

(** [l[-2]] and [l[-1]] of a list of at least two elements. *)
Definition last_two {A} (l : list A) : option (A * A) :=
  match rev l with
  | x :: y :: _ => Some (y, x)
  | _ => None
  end.

(** [get_dataset], with the descriptor as [calibrate] leaves it.  The
    descriptor names its storage key with a string; any other value is
    not modelled and reported as [TypeError]. *)
Definition get_dataset (self : HDF_GHI_L1) (dataset_id : DataID)
    (ds_info : gmap string value) : result (Dataset * gmap string value) :=
  let ds_name := name dataset_id in
  file_key ←
    match ds_info !! "file_key" with
    | None => Ok ds_name
    | Some (VStr s) => Ok s
    | Some _ => Raise TypeError
    end;
  let file_key := resolve_file_key file_key in
  match get self file_key with
  | None => Raise AttributeError
  | Some d =>
      d ← match last_two (dims d) with
          | Some (dy, dx) => rename d [(dy, "y"); (dx, "x")]
          | None => Ok d
          end;
      '(d, ds_info) ← calibrate format_value self d ds_info ds_name file_key;
      out ← adjust_attrs self d ds_info;
      Ok (out, ds_info)
  end.

End GetDataset.

(** ** More sample data *)

Module More.

Import Sample.

(** Digital numbers [apply_lut] maps with the sample table, in two
    different chunkings. *)
Definition dn_values : list (list Z) := [[0; 3]; [4; 65535; -1]].

Definition dn_blocks : DataArray :=
  mkDataArray (map (map NInt) dn_values) ["y"; "x"] raw_attrs.

Definition dn_rechunked : DataArray :=
  mkDataArray [[NInt 0]; [NInt 3; NInt 4]; [NInt 65535; NInt (-1)]] ["y"; "x"]
    raw_attrs.

End More.

(** ** A sample file with its identification attributes and channels *)

Module Full.

Import Sample.

Definition global_attrs : gmap string value :=
  <["/attr/Satellite Name" := VStr "FY4B"]>
    (<["/attr/Sensor Identification Code" := VStr "GHI"]>
       (<["/attr/NOMSubSatLat" := VNum (NFloat 0)]> (Sample.global_attrs 4000))).

Definition file : HDF_GHI_L1 :=
  mkHandler global_attrs
    (<["Data/NOMChannel02" := raw]>
       (<["Data/NOMChannel07" := More.dn_blocks]>
          (<["Calibration/C07" := lut]> ∅)))
    (Some coef_table) (<["observation_type" := "REGX"]> ∅).

(** The same file with a coefficient table of one row. *)
Definition file_single_row : HDF_GHI_L1 :=
  mkHandler global_attrs (<["Data/NOMChannel02" := raw]> ∅)
    (Some (mkCoefTable [[0.0009765625; 0]]%float ["channel"; "coef"] ∅))
    (<["observation_type" := "REGX"]> ∅).

(** The same file without its [RegLength] attribute. *)
Definition file_without_reg_length : HDF_GHI_L1 :=
  mkHandler (delete "/attr/RegLength" global_attrs) (datasets file)
    (calibration_coef file) (filename_info file).

(** A renaming that accepts every request and names the two last
    dimensions as asked. *)
Definition rename (d : DataArray) (names : list (string * string))
  : result DataArray :=
  Ok (mkDataArray (data d)
        (take (length (dims d) - 2) (dims d) ++ map snd names) (attrs d)).

Definition ds_info_of (calibration units file_key : string) : gmap string value :=
  <["file_key" := VStr file_key]> (Sample.ds_info_of calibration units).

Definition no_dataset : Dataset := mkDataset [] [] ∅.

(** Runs of [calibrate], [adjust_attrs] and [get_dataset] on the file. *)
Definition calibrated (calibration : string) : DataArray * gmap string value :=
  from_Ok (Run.no_array, ∅)
    (calibrate format_value file raw (Sample.ds_info_of calibration "%")
       "C02" "Data/NOMChannel02").

Definition ds_uncalibrated : gmap string value := <["units" := VStr "degrees"]> ∅.

Definition uncalibrated : DataArray * gmap string value :=
  from_Ok (Run.no_array, ∅)
    (calibrate format_value file raw ds_uncalibrated "SunZenith"
       "Navigation/NOMSunZenith").

Definition brightness_temperature : DataArray * gmap string value :=
  from_Ok (Run.no_array, ∅)
    (calibrate format_value file More.dn_blocks
       (Sample.ds_info_of "brightness_temperature" "K") "C07" "Data/NOMChannel07").

Definition adjusted : Dataset :=
  from_Ok no_dataset (adjust_attrs file raw (Sample.ds_info_of "counts" "1")).

Definition dataset (calibration : string) : Dataset * gmap string value :=
  from_Ok (no_dataset, ∅)
    (get_dataset rename format_value file (mkDataID "C02" 500)
       (ds_info_of calibration "%" "NOMChannel02")).

Definition area_args : gmap string value * (float * float * float * float) :=
  from_Ok (∅, (0, 0, 0, 0)%float)
    (area_def_args float_of_string Proj file (mkDataID "C07" 500)).

(** A projection library that accepts a parameter dictionary only when
    it asks for the geostationary projection. *)
Definition Proj_geos (proj_dict : gmap string value)
  : result (num -> num -> float * float) :=
  match proj_dict !! "proj" with
  | Some (VStr s) => if String.eqb s "geos" then Proj proj_dict else Raise ValueError
  | _ => Raise ValueError
  end.

End Full.
(** ** Properties of [scale] *)








(** What the clamp does to a float, case by case: NaN stays NaN, a float
    above zero is kept, and every other float becomes [+0.0]. *)
Lemma clip_min0_float (x : float) :
  clip_min0 (NFloat x)
  = NFloat (if (0 <? x)%float then x else if is_nan x then x else 0%float).
Proof. reflexivity. Qed.




(** ** Properties of [apply_lut] *)

Lemma traverse_Ok_Forall2 {A B} (f : A -> result B) (l : list A) (r : list B) :
  traverse f l = Ok r <-> Forall2 (fun x y => f x = Ok y) l r.
Proof.
  revert r. induction l as [|x xs IH]; intros r; simpl.
  - split.
    + intros [= <-]. constructor.
    + intros H. inversion H. reflexivity.
  - split.
    + destruct (f x) as [y|e] eqn:Hx; simpl; [|discriminate].
      destruct (traverse f xs) as [ys|e] eqn:Hxs; simpl; [|discriminate].
      intros [= <-]. constructor; [exact Hx | apply IH; reflexivity].
    + intros H. inversion H as [|x' y xs' ys Hx Hxs]; subst.
      rewrite Hx; simpl. apply IH in Hxs. rewrite Hxs. reflexivity.
Qed.

Lemma traverse_Raise {A B} (f : A -> result B) (l : list A) (x : A) (e : exn) :
  x ∈ l -> f x = Raise e -> exists e', traverse f l = Raise e'.
Proof.
  intros Hin Hx. induction l as [|a l IH]; [inversion Hin|].
  simpl. apply elem_of_cons in Hin as [->|Hin].
  - rewrite Hx. simpl. eauto.
  - destruct (f a); simpl; [|eauto].
    destruct (IH Hin) as [e' ->]. simpl. eauto.
Qed.

Lemma np_getitem_inrange {A} (l : list A) (i : Z) :
  0 <= i < Z.of_nat (length l) ->
  exists x, l !! Z.to_nat i = Some x /\ np_getitem l i = Ok x.
Proof.
  intros Hi. unfold np_getitem.
  destruct (i <? 0) eqn:Hneg; [apply Z.ltb_lt in Hneg; lia|].
  replace ((0 <=? i) && (i <? Z.of_nat (length l)))%bool with true.
  2:{ symmetry. apply andb_true_iff. split; [apply Z.leb_le|apply Z.ltb_lt]; lia. }
  destruct (lookup_lt_is_Some_2 l (Z.to_nat i)) as [x Hx]; [lia|].
  exists x. rewrite Hx. split; reflexivity.
Qed.

Lemma np_getitem_too_large {A} (l : list A) (i : Z) :
  Z.of_nat (length l) <= i -> np_getitem l i = Raise IndexError.
Proof.
  intros Hi. unfold np_getitem.
  destruct (i <? 0) eqn:Hneg; [apply Z.ltb_lt in Hneg; lia|].
  replace (i <? Z.of_nat (length l)) with false; [|symmetry; apply Z.ltb_ge; lia].
  rewrite andb_false_r. reflexivity.
Qed.

(** A digital number inside the table is looked up in it. *)
Lemma lut_elem_inside (l : list float) (v : Z) :
  0 <= v <= Z.of_nat (length l) - 1 ->
  exists x, l !! Z.to_nat v = Some x /\ lut_elem l v = Ok (NFloat x).
Proof.
  intros Hv. unfold lut_elem, where_gt, getitem_elem.
  rewrite length_app; simpl length.
  destruct (_ <? v) eqn:Hgt; [apply Z.ltb_lt in Hgt; lia|].
  destruct (np_getitem_inrange (l ++ [nan]) v) as [x [Hx ->]].
  { rewrite length_app; simpl length. lia. }
  rewrite lookup_app_l in Hx by lia.
  exists x. split; [exact Hx | reflexivity].
Qed.

Lemma np_getitem_sentinel (l : list float) :
  np_getitem (l ++ [nan]) (Z.of_nat (length l)) = Ok nan.
Proof.
  destruct (np_getitem_inrange (l ++ [nan]) (Z.of_nat (length l))) as [x [Hx ->]].
  { rewrite length_app; simpl length. lia. }
  rewrite Nat2Z.id in Hx. rewrite lookup_app_r in Hx by lia.
  rewrite Nat.sub_diag in Hx. simpl in Hx. congruence.
Qed.

(** The digital number equal to the length of the table reads the
    appended NaN. *)
Lemma lut_elem_at_length (l : list float) :
  lut_elem l (Z.of_nat (length l)) = Ok (NFloat nan).
Proof.
  unfold lut_elem, where_gt, getitem_elem.
  rewrite length_app; simpl length.
  destruct (_ <? _) eqn:Hgt; [apply Z.ltb_lt in Hgt; lia|].
  rewrite np_getitem_sentinel. reflexivity.
Qed.

(** A digital number above the length of the table plus one is replaced
    by the index of the appended NaN. *)
Lemma lut_elem_far_above (l : list float) (v : Z) :
  Z.of_nat (length l) + 1 < v -> lut_elem l v = Ok (NFloat nan).
Proof.
  intros Hv. unfold lut_elem, where_gt, getitem_elem.
  rewrite length_app; simpl length.
  destruct (_ <? v) eqn:Hgt; [|apply Z.ltb_ge in Hgt; lia].
  replace (Z.of_nat (length l + 1) - 1) with (Z.of_nat (length l)) by lia.
  rewrite np_getitem_sentinel. reflexivity.
Qed.

(** The digital number equal to the length of the table plus one is not
    replaced, and indexes the table past its end. *)
Lemma lut_elem_just_above (l : list float) :
  lut_elem l (Z.of_nat (length l) + 1) = Raise IndexError.
Proof.
  unfold lut_elem, where_gt, getitem_elem.
  rewrite length_app; simpl length.
  destruct (_ <? _) eqn:Hgt; [apply Z.ltb_lt in Hgt; lia|].
  rewrite np_getitem_too_large; [reflexivity|].
  rewrite length_app; simpl length. lia.
Qed.

Lemma traverse_Raise_inv {A B} (f : A -> result B) (l : list A) (e : exn) :
  traverse f l = Raise e -> exists x, x ∈ l /\ f x = Raise e.
Proof.
  induction l as [|a l IH]; simpl; [discriminate|].
  destruct (f a) as [y|e'] eqn:Ha; simpl.
  - destruct (traverse f l) as [ys|e'] eqn:Hl; simpl; [discriminate|].
    intros [= ->]. destruct (IH eq_refl) as [x [Hx Hfx]].
    exists x. split; [apply elem_of_cons; right; exact Hx | exact Hfx].
  - intros [= ->]. exists a. split; [apply elem_of_cons; left; reflexivity | exact Ha].
Qed.

Lemma elem_of_elements (blocks : list (list num)) (x : num) :
  x ∈ elements blocks <-> exists b, b ∈ blocks /\ x ∈ b.
Proof.
  unfold elements. induction blocks as [|b bs IH]; simpl.
  - split; [intros H; inversion H | intros [b [H _]]; inversion H].
  - rewrite elem_of_app, IH. split.
    + intros [H|[b' [Hb' Hx]]].
      * exists b. split; [apply elem_of_cons; left; reflexivity | exact H].
      * exists b'. split; [apply elem_of_cons; right; exact Hb' | exact Hx].
    + intros [b' [Hb' Hx]]. apply elem_of_cons in Hb' as [->|Hb'].
      * left. exact Hx.
      * right. exists b'. split; assumption.
Qed.

(** [apply_lut] works element by element, whatever the blocks are: when it
    returns, block [i] of the result is block [i] of the input with every
    digital number mapped on its own. *)
Lemma apply_lut_elementwise (d lut r : DataArray) :
  apply_lut d lut = Ok r ->
  Forall2 (Forall2 (fun x y =>
             getitem_elem (np_append_nan lut)
               (where_gt (Z.of_nat (length (np_append_nan lut))) x) = Ok y))
          (data d) (data r)
  /\ attrs r = attrs d /\ dims r = dims d.
Proof.
  unfold apply_lut, map_blocks, _getitem.
  destruct (traverse _ _) as [res|e] eqn:Hres; simpl; [|discriminate].
  intros [= <-]. simpl. split; [|split; reflexivity].
  apply traverse_Ok_Forall2 in Hres. unfold amap in Hres.
  apply Forall2_fmap_l in Hres.
  eapply Forall2_impl; [exact Hres|].
  intros b rb Hb. simpl in Hb. apply traverse_Ok_Forall2 in Hb.
  apply Forall2_fmap_l in Hb. exact Hb.
Qed.

(** An element that makes the lookup raise makes [apply_lut] raise. *)
Lemma apply_lut_raises (d lut : DataArray) (x : num) (e : exn) :
  x ∈ elements (data d) ->
  getitem_elem (np_append_nan lut)
    (where_gt (Z.of_nat (length (np_append_nan lut))) x) = Raise e ->
  exists e', apply_lut d lut = Raise e'.
Proof.
  intros Hx Hraise. apply elem_of_elements in Hx as [b [Hb Hxb]].
  unfold apply_lut, map_blocks, _getitem.
  set (N := Z.of_nat (length (np_append_nan lut))) in *.
  destruct (traverse_Raise (getitem_elem (np_append_nan lut))
              (map (where_gt N) b) (where_gt N x) e) as [e1 He1].
  { apply list_elem_of_fmap. exists x. split; [reflexivity | exact Hxb]. }
  { exact Hraise. }
  destruct (traverse_Raise
              (fun block => traverse (getitem_elem (np_append_nan lut)) block)
              (amap (where_gt N) (data d)) (map (where_gt N) b) e1) as [e2 He2].
  { unfold amap. apply list_elem_of_fmap. exists b. split; [reflexivity | exact Hb]. }
  { exact He1. }
  rewrite He2. simpl. eauto.
Qed.

(** The only exception [apply_lut] raises is [IndexError]. *)
Lemma apply_lut_only_IndexError (d lut : DataArray) (e : exn) :
  apply_lut d lut = Raise e -> e = IndexError.
Proof.
  unfold apply_lut, map_blocks, _getitem.
  destruct (traverse _ _) as [res|e'] eqn:Hres; simpl; [discriminate|].
  intros [= ->].
  apply traverse_Raise_inv in Hres as [b [_ Hb]].
  apply traverse_Raise_inv in Hb as [x [_ Hx]].
  unfold getitem_elem in Hx. destruct x as [z|f]; [|congruence].
  unfold np_getitem in Hx.
  repeat match type of Hx with
         | context [if ?c then _ else _] => destruct c; simpl in Hx
         | context [match ?l !! ?i with _ => _ end] => destruct (l !! i); simpl in Hx
         end; congruence.
Qed.

(** C1 (the code departs from the specification at one digital number).
    Every array that holds the digital number equal to the length of the
    table plus one makes [apply_lut] raise [IndexError]: that element is
    not replaced by the index of the appended NaN. *)
Theorem apply_lut_raises_at_length_plus_one (d lut : DataArray) :
  NInt (Z.of_nat (length (elements (data lut))) + 1) ∈ elements (data d) ->
  apply_lut d lut = Raise IndexError.
Proof.
  intros Hin.
  destruct (apply_lut_raises d lut _ IndexError Hin) as [e He].
  - pose proof (lut_elem_just_above (map to_float (elements (data lut)))) as H.
    unfold lut_elem in H. rewrite length_map in H. exact H.
  - rewrite He. f_equal. eapply apply_lut_only_IndexError. exact He.
Qed.

(** C2 (the code departs from the specification at one digital number).
    For every table, the digital number equal to its length plus one is left as it
    is by the replacement step, and the gather then indexes the table,
    NaN included, past its last entry. *)
Theorem apply_lut_gather_out_of_bounds (l : list float) :
  let lut := (l ++ [nan])%list in
  let v := Z.of_nat (length l) + 1 in
  where_gt (Z.of_nat (length lut)) (NInt v) = NInt v
  /\ Z.of_nat (length lut) <= v
  /\ getitem_elem lut (NInt v) = Raise IndexError.
Proof.
  simpl. rewrite length_app; simpl length. split; [|split].
  - destruct (_ <? _) eqn:Hgt; [apply Z.ltb_lt in Hgt; lia | reflexivity].
  - lia.
  - rewrite np_getitem_too_large; [reflexivity|].
    rewrite length_app; simpl length. lia.
Qed.

(** ** Properties of [calibrate] *)

Lemma bind_Ok_inv {A B} (m : result A) (f : A -> result B) (b : B) :
  m ≫= f = Ok b -> exists a, m = Ok a /\ f a = Ok b.
Proof.
  destruct m as [a|e]; simpl; [eauto | discriminate].
Qed.

Lemma getitem_Ok {V} (m : gmap string V) (k : string) (v : V) :
  getitem m k = Ok v <-> m !! k = Some v.
Proof.
  unfold getitem. destruct (m !! k); split; congruence.
Qed.

Lemma apply_range_limits_Ok (d out : DataArray) :
  apply_range_limits d = Ok out ->
  exists vr lo hi,
    attrs d !! "valid_range" = Some vr /\ py_min vr = Ok lo /\ py_max vr = Ok hi
    /\ out = mkDataArray (amap (where_in_range lo hi) (data d)) (dims d) (attrs d).
Proof.
  unfold apply_range_limits. intros H.
  apply bind_Ok_inv in H as [vr [Hvr H]].
  apply bind_Ok_inv in H as [lo [Hlo H]].
  apply bind_Ok_inv in H as [hi [Hhi H]].
  apply getitem_Ok in Hvr. injection H as <-.
  exists vr, lo, hi. repeat split; assumption.
Qed.

(** An element that passed the range limits is NaN or the value of an
    element that lies between the two bounds. *)
Lemma where_in_range_cases (lo hi x : num) :
  num_is_nan (where_in_range lo hi x) = true
  \/ (where_in_range lo hi x = NFloat (to_float x)
      /\ num_leb lo x = true /\ num_leb x hi = true).
Proof.
  unfold where_in_range, num_geb.
  destruct (num_leb lo x) eqn:Hlo; simpl; [|left; reflexivity].
  destruct (num_leb x hi) eqn:Hhi; simpl; [|left; reflexivity].
  right. repeat split.
Qed.

Lemma length_string_app (s1 s2 : string) :
  String.length (s1 +:+ s2) = (String.length s1 + String.length s2)%nat.
Proof.
  induction s1 as [|a s1 IH]; simpl; [reflexivity|]. rewrite IH. reflexivity.
Qed.

Lemma last2_app (p s : string) :
  (2 <= String.length s)%nat -> last2 (p +:+ s) = last2 s.
Proof.
  intros Hlen. unfold last2. induction p as [|a p IH]; [reflexivity|].
  change (String a p +:+ s) with (String a (p +:+ s)).
  change (String.length (String a (p +:+ s)))
    with (S (String.length (p +:+ s))).
  replace (S (String.length (p +:+ s)) - 2)%nat
    with (S (String.length (p +:+ s) - 2))%nat
    by (rewrite length_string_app; lia).
  exact IH.
Qed.

(** The ten decimal digits. *)
Lemma digit_cases (c : ascii) :
  (48 <= nat_of_ascii c <= 57)%nat ->
  c ∈ ["0"; "1"; "2"; "3"; "4"; "5"; "6"; "7"; "8"; "9"]%char.
Proof.
  intros H. rewrite <- (ascii_nat_embedding c).
  remember (nat_of_ascii c) as n eqn:Hn. clear Hn.
  assert (Hc : (n = 48 \/ n = 49 \/ n = 50 \/ n = 51 \/ n = 52 \/ n = 53
                \/ n = 54 \/ n = 55 \/ n = 56 \/ n = 57)%nat) by lia.
  repeat (destruct Hc as [->|Hc];
          [apply (bool_decide_unpack _); vm_compute; exact I|]).
  subst n. apply (bool_decide_unpack _). vm_compute. exact I.
Qed.



(** What [calibrate_to_reflectance] returns, step by step. *)
Lemma calibrate_to_reflectance_Ok (self : HDF_GHI_L1) (d out : DataArray)
    (ci : Z) (ds_info ds' : gmap string value) :
  calibrate_to_reflectance self d ci ds_info = Ok (out, ds') ->
  exists t slope offset vr vr1 vr2,
    calibration_coef self = Some t
    /\ table_item (coef_rows t) (effective_channel (coef_rows t) ci) 0 = Ok slope
    /\ table_item (coef_rows t) (effective_channel (coef_rows t) ci) 1 = Ok offset
    /\ out = imul (scale (set_attr (set_attr d "scale_factor" (VNum (NFloat slope)))
                            "add_offset" (VNum (NFloat offset))) slope offset) 100
    /\ attrs d !! "valid_range" = Some vr
    /\ value_affine vr slope offset = Ok vr1
    /\ value_mul vr1 100 = Ok vr2
    /\ ds' = <["valid_range" := vr2]> (<["valid_range" := vr1]> ds_info).
Proof.
  unfold calibrate_to_reflectance, get_table. intros H.
  destruct (calibration_coef self) as [t|] eqn:Hget; [|discriminate]. simpl in H.
  apply bind_Ok_inv in H as [sf [Hsf H]].
  apply bind_Ok_inv in H as [off [Hoff H]].
  apply bind_Ok_inv in H as [vr [Hvr H]].
  apply bind_Ok_inv in H as [vr1 [Hvr1 H]].
  apply bind_Ok_inv in H as [vr2 [Hvr2 H]].
  injection H as <- <-.
  apply getitem_Ok in Hvr. simpl in Hvr.
  rewrite !lookup_insert_ne in Hvr by discriminate.
  exists t, sf, off, vr, vr1, vr2. repeat split; assumption.
Qed.

(** The transform step of [calibrate] leaves the [valid_range] attribute
    of the array as the raw array declared it. *)
Lemma calibrate_to_reflectance_valid_range (self : HDF_GHI_L1) (d out : DataArray)
    (ci : Z) (ds_info ds' : gmap string value) :
  calibrate_to_reflectance self d ci ds_info = Ok (out, ds') ->
  attrs out !! "valid_range" = attrs d !! "valid_range".
Proof.
  intros H. apply calibrate_to_reflectance_Ok in H
    as (t & sf & off & vr & vr1 & vr2 & _ & _ & _ & -> & _). simpl.
  rewrite lookup_insert_ne by discriminate.
  rewrite lookup_insert_ne by discriminate. reflexivity.
Qed.

Section CalibrateProperties.

Variable format_value : value -> string.

(** C6. When the requested calibration is radiance, [calibrate] raises
    [NotImplementedError], whatever the handler, the array and the rest
    of the descriptor are; it returns no value. *)
Theorem calibrate_radiance_raises (self : HDF_GHI_L1) (d : DataArray)
    (ds_info : gmap string value) (ds_name file_key : string) :
  ds_info !! "calibration" = Some (VStr "radiance") ->
  calibrate format_value self d ds_info ds_name file_key = Raise NotImplementedError.
Proof.
  intros H. unfold calibrate, calibrate_transform. rewrite H. reflexivity.
Qed.

Lemma calibrate_to_bt_valid_range (self : HDF_GHI_L1) (d out : DataArray)
    (ds_info ds' : gmap string value) (ds_name : string) :
  calibrate_to_bt format_value self d ds_info ds_name = Ok (out, ds') ->
  attrs out !! "valid_range" = attrs d !! "valid_range".
Proof.
  unfold calibrate_to_bt. intros H.
  destruct (get self (lut_key_of format_value ds_info ds_name)) as [lut|];
    [|discriminate].
  apply bind_Ok_inv in H as [r [Hr H]].
  apply bind_Ok_inv in H as [vr [_ H]].
  injection H as <- <-.
  apply apply_lut_elementwise in Hr as [_ [-> _]]. reflexivity.
Qed.

(** C3. For reflectance, the range limits at the end of [calibrate] are
    not those of the calibration's valid range.  [calibrate] computes
    that range, [(raw_valid_range * slope + offset) * 100], and stores it
    in the descriptor; but it masks the calibrated values with the
    [valid_range] attribute of the array, which still is the range of the
    raw digital numbers, and which the returned array still carries.  A
    calibrated value is kept exactly when it lies between the minimum
    and the maximum of the raw range. *)
Theorem calibrate_reflectance_masks_with_raw_range (self : HDF_GHI_L1)
    (d out : DataArray) (ds_info ds' : gmap string value)
    (ds_name file_key : string) :
  ds_info !! "calibration" = Some (VStr "reflectance") ->
  calibrate format_value self d ds_info ds_name file_key = Ok (out, ds') ->
  exists d1 raw_range lo hi slope offset calibrated_range,
    calibrate_transform format_value self d ds_info ds_name file_key = Ok (d1, ds')
    /\ attrs d !! "valid_range" = Some raw_range
    /\ attrs out !! "valid_range" = Some raw_range
    /\ py_min raw_range = Ok lo /\ py_max raw_range = Ok hi
    /\ data out
       = map (map (fun x => if (num_leb lo x && num_leb x hi)%bool
                            then NFloat (to_float x) else NFloat nan))
           (data d1)
    /\ data d1
       = map (map (fun y => NFloat (to_float y * 100))) (data (scale d slope offset))
    /\ match raw_range with
       | VArr l =>
           calibrated_range
           = VArr (map (fun a => NFloat ((to_float a * slope + offset) * 100)) l)
       | VNum a =>
           calibrated_range = VNum (NFloat ((to_float a * slope + offset) * 100))
       | VStr _ => False
       end
    /\ ds' !! "valid_range" = Some calibrated_range.
Proof.
  intros Hcal H. unfold calibrate in H.
  apply bind_Ok_inv in H as [[d1 ds1] [Hstep H]].
  rewrite Hcal in H. simpl in H.
  apply bind_Ok_inv in H as [d2 [Hlim H]]. injection H as <- <-.
  apply apply_range_limits_Ok in Hlim as (vr & lo & hi & Hvr & Hlo & Hhi & ->).
  pose proof Hstep as Hstep'.
  unfold calibrate_transform in Hstep. rewrite Hcal in Hstep. simpl in Hstep.
  apply bind_Ok_inv in Hstep as [n [_ Hstep]].
  pose proof (calibrate_to_reflectance_valid_range _ _ _ _ _ _ Hstep) as Hraw.
  apply calibrate_to_reflectance_Ok in Hstep
    as (t & sf & off & vr0 & vr1 & vr2 & _ & _ & _ & Hd1 & Hvr0 & Hvr1 & Hvr2 & ->).
  rewrite Hraw, Hvr0 in Hvr. injection Hvr as <-.
  exists d1, vr0, lo, hi, sf, off, vr2. simpl.
  split; [exact Hstep'|]. split; [exact Hvr0|].
  split; [rewrite Hraw; exact Hvr0|]. split; [exact Hlo|]. split; [exact Hhi|].
  split; [reflexivity|].
  split; [rewrite Hd1; reflexivity|].
  split; [|apply lookup_insert_eq].
  destruct vr0 as [s|a|l]; simpl in Hvr1.
  - discriminate.
  - injection Hvr1 as <-. simpl in Hvr2. injection Hvr2 as <-. reflexivity.
  - injection Hvr1 as <-. simpl in Hvr2. injection Hvr2 as <-.
    rewrite map_map. reflexivity.
Qed.


End CalibrateProperties.

(** ** Properties of [get_area_def] *)

Lemma list_index_absent (l : list Z) (x : Z) :
  x ∉ l -> list_index l x = Raise ValueError.
Proof.
  induction l as [|y l IH]; intros Hx; simpl; [reflexivity|].
  apply not_elem_of_cons in Hx as [Hne Hx].
  destruct (y =? x) eqn:Heq; [apply Z.eqb_eq in Heq; congruence|].
  rewrite (IH Hx). reflexivity.
Qed.

Lemma list_index_supported (r : Z) :
  r ∈ RESOLUTION_LIST ->
  exists i, list_index RESOLUTION_LIST r = Ok i /\ 0 <= i < 4.
Proof.
  unfold RESOLUTION_LIST. rewrite !elem_of_cons, elem_of_nil.
  intros [->|[->|[->|[->|[]]]]]; eexists; (split; [reflexivity | lia]).
Qed.

(** The position [RESOLUTION_LIST.index] returns for each resolution. *)
Lemma list_index_resolution (r i : Z) :
  list_index RESOLUTION_LIST r = Ok i ->
  r = 250 /\ i = 0 \/ r = 500 /\ i = 1 \/ r = 1000 /\ i = 2 \/ r = 2000 /\ i = 3.
Proof.
  intros H. destruct (decide (r ∈ RESOLUTION_LIST)) as [Hin|Hout].
  - unfold RESOLUTION_LIST in Hin. rewrite !elem_of_cons, elem_of_nil in Hin.
    destruct Hin as [->|[->|[->|[->|[]]]]];
      vm_compute in H; injection H as <-; lia.
  - rewrite (list_index_absent _ _ Hout) in H. discriminate.
Qed.

Lemma read_corners_Ok (self : HDF_GHI_L1) (p1 p2 p3 p4 : num * num) :
  read_corners self = Ok (p1, p2, p3, p4) ->
  exists c_lats c_lons,
    file_content self !! "/attr/Corner-Point Latitudes" = Some c_lats
    /\ file_content self !! "/attr/Corner-Point Longitudes" = Some c_lons
    /\ value_getitem c_lons 0 = Ok (fst p1) /\ value_getitem c_lats 0 = Ok (snd p1)
    /\ value_getitem c_lons 1 = Ok (fst p2) /\ value_getitem c_lats 1 = Ok (snd p2)
    /\ value_getitem c_lons 2 = Ok (fst p3) /\ value_getitem c_lats 2 = Ok (snd p3)
    /\ value_getitem c_lons 3 = Ok (fst p4) /\ value_getitem c_lats 3 = Ok (snd p4).
Proof.
  unfold read_corners. intros H.
  apply bind_Ok_inv in H as [c_lats [Hlats H]].
  apply bind_Ok_inv in H as [c_lons [Hlons H]].
  apply getitem_Ok in Hlats, Hlons.
  do 8 (let x := fresh "x" in let E := fresh "E" in
        apply bind_Ok_inv in H as [x [E H]]).
  do 8 (let x := fresh "y" in apply bind_Ok_inv in H as [x [_ H]]).
  injection H as <- <- <- <-. simpl.
  exists c_lats, c_lons. repeat split; assumption.
Qed.

Section AreaProperties.

Context {AreaDefinition : Type}.
Variable float_of_string : string -> result float.
Variable Proj : gmap string value -> result (num -> num -> float * float).
Variable get_area_definition :
  gmap string value -> float * float * float * float -> result AreaDefinition.

(** The dictionary [build_pdict] returns, entry by entry. *)
Lemma build_pdict_Ok (self : HDF_GHI_L1) (key : DataID) (pd : gmap string value) :
  build_pdict float_of_string self key = Ok pd ->
  exists i coff loff cfac lfac a b h ssp_lon nl nc cs ls a_desc a_name p_id nl' nc',
    list_index RESOLUTION_LIST (resolution key) = Ok i
    /\ np_getitem _COFF_list i = Ok coff /\ np_getitem _LOFF_list i = Ok loff
    /\ np_getitem _CFAC_list i = Ok cfac /\ np_getitem _LFAC_list i = Ok lfac
    /\ file_content self !! "/attr/RegLength" = Some nl
    /\ file_content self !! "/attr/RegWidth" = Some nc
    /\ value_binop num_sub nl (VNum (NInt 1)) = Ok nl'
    /\ value_binop num_sub nc (VNum (NInt 1)) = Ok nc'
    /\ pd = <["ncols" := nc']> (<["nlines" := nl']>
            (<["p_id" := VStr p_id]> (<["a_name" := VStr a_name]>
            (<["a_desc" := VStr a_desc]> (<["scandir" := VStr "N2S"]>
            (<["line_step_ang" := ls]> (<["col_step_ang" := cs]>
            (<["ncols" := nc]> (<["nlines" := nl]>
            (<["ssp_lon" := VNum (NFloat ssp_lon)]>
            (<["h" := h]> (<["b" := b]> (<["a" := a]>
            (<["lfac" := VNum (NFloat lfac)]> (<["cfac" := VNum (NFloat cfac)]>
            (<["loff" := VNum (NFloat (- loff))]>
            (<["coff" := VNum (NFloat coff)]> ∅))))))))))))))))).
Proof.
  unfold build_pdict. intros H.
  apply bind_Ok_inv in H as [i [Hi H]].
  apply bind_Ok_inv in H as [coff [Hcoff H]].
  apply bind_Ok_inv in H as [i1 [Hi1 H]]. rewrite Hi in Hi1. injection Hi1 as <-.
  apply bind_Ok_inv in H as [loff [Hloff H]].
  apply bind_Ok_inv in H as [i2 [Hi2 H]]. rewrite Hi in Hi2. injection Hi2 as <-.
  apply bind_Ok_inv in H as [cfac [Hcfac H]].
  apply bind_Ok_inv in H as [i3 [Hi3 H]]. rewrite Hi in Hi3. injection Hi3 as <-.
  apply bind_Ok_inv in H as [lfac [Hlfac H]].
  apply bind_Ok_inv in H as [va [_ H]]. apply bind_Ok_inv in H as [a [_ H]].
  apply bind_Ok_inv in H as [vb [_ H]]. apply bind_Ok_inv in H as [b [_ H]].
  apply bind_Ok_inv in H as [vh [_ H]]. apply bind_Ok_inv in H as [h [_ H]].
  apply bind_Ok_inv in H as [vl [_ H]]. apply bind_Ok_inv in H as [ssp_lon [_ H]].
  apply bind_Ok_inv in H as [nl [Hnl H]]. apply bind_Ok_inv in H as [nc [Hnc H]].
  apply bind_Ok_inv in H as [vc [_ H]]. apply bind_Ok_inv in H as [cs [_ H]].
  apply bind_Ok_inv in H as [vs [_ H]]. apply bind_Ok_inv in H as [ls [_ H]].
  apply bind_Ok_inv in H as [obs [Hobs H]].
  apply bind_Ok_inv in H as [pd0 [Hpd0 H]].
  assert (exists a_name p_id,
    pd0 = <["p_id" := VStr p_id]> (<["a_name" := VStr a_name]>
            (<["a_desc" := VStr ("AGRI " +:+ obs +:+ " area")]>
            (<["scandir" := VStr "N2S"]>
            (<["line_step_ang" := ls]> (<["col_step_ang" := cs]>
            (<["ncols" := nc]> (<["nlines" := nl]>
            (<["ssp_lon" := VNum (NFloat ssp_lon)]>
            (<["h" := h]> (<["b" := b]> (<["a" := a]>
            (<["lfac" := VNum (NFloat lfac)]> (<["cfac" := VNum (NFloat cfac)]>
            (<["loff" := VNum (NFloat (- loff))]>
            (<["coff" := VNum (NFloat coff)]> ∅)))))))))))))))) as (a_name & p_id & ->).
  { destruct (name_in (name key) b250); [|destruct (name_in (name key) b500)];
      rewrite Hobs in Hpd0; simpl in Hpd0; injection Hpd0 as <-; eauto. }
  apply bind_Ok_inv in H as [nl0 [Hnl0 H]].
  apply bind_Ok_inv in H as [nl' [Hnl' H]].
  apply bind_Ok_inv in H as [nc0 [Hnc0 H]].
  apply bind_Ok_inv in H as [nc' [Hnc' H]].
  injection H as <-.
  apply getitem_Ok in Hnl, Hnc, Hnl0, Hnc0.
  rewrite !lookup_insert_ne in Hnl0 by discriminate.
  rewrite lookup_insert_eq in Hnl0. injection Hnl0 as <-.
  rewrite !lookup_insert_ne in Hnc0 by discriminate.
  rewrite lookup_insert_eq in Hnc0. injection Hnc0 as <-.
  exists i, coff, loff, cfac, lfac, a, b, h, ssp_lon, nl, nc, cs, ls,
    ("AGRI " +:+ obs +:+ " area"), a_name, p_id, nl', nc'.
  repeat split; assumption.
Qed.

(** What [area_def_args] returns: the dictionary of [build_pdict] with
    the two counts increased by one, and the corner tuple. *)
Lemma area_def_args_Ok (self : HDF_GHI_L1) (key : DataID)
    (pd : gmap string value) (ext : float * float * float * float) :
  area_def_args float_of_string Proj self key = Ok (pd, ext) ->
  exists p1 p2 p3 p4 pdict proj_dict p nl nc nl'' nc'',
    read_corners self = Ok (p1, p2, p3, p4)
    /\ build_pdict float_of_string self key = Ok pdict
    /\ build_proj_dict pdict = Ok proj_dict
    /\ Proj proj_dict = Ok p
    /\ pdict !! "nlines" = Some nl /\ pdict !! "ncols" = Some nc
    /\ value_binop num_add nl (VNum (NInt 1)) = Ok nl''
    /\ value_binop num_add nc (VNum (NInt 1)) = Ok nc''
    /\ pd = <["ncols" := nc'']> (<["nlines" := nl'']> pdict)
    /\ ext = (fst (p (fst p3) (snd p3)), snd (p (fst p4) (snd p4)),
              fst (p (fst p4) (snd p4)), snd (p (fst p3) (snd p3))).
Proof.
  unfold area_def_args. intros H.
  apply bind_Ok_inv in H as [[[[p1 p2] p3] p4] [Hc H]].
  apply bind_Ok_inv in H as [pdict [Hpd H]].
  apply bind_Ok_inv in H as [proj_dict [Hpj H]].
  apply bind_Ok_inv in H as [p [Hp H]].
  apply bind_Ok_inv in H as [nl [Hnl H]].
  apply bind_Ok_inv in H as [nl'' [Hnl2 H]].
  apply bind_Ok_inv in H as [nc [Hnc H]].
  apply bind_Ok_inv in H as [nc'' [Hnc2 H]].
  injection H as <- <-.
  apply getitem_Ok in Hnl, Hnc.
  rewrite lookup_insert_ne in Hnc by discriminate.
  exists p1, p2, p3, p4, pdict, proj_dict, p, nl, nc, nl'', nc''.
  repeat split; assumption.
Qed.

Lemma get_area_def_call (self : HDF_GHI_L1) (key : DataID)
    (pd : gmap string value) (ext : float * float * float * float) :
  area_def_args float_of_string Proj self key = Ok (pd, ext) ->
  get_area_def AreaDefinition float_of_string Proj get_area_definition self key
    = get_area_definition pd ext.
Proof.
  intros H. unfold get_area_def. rewrite H. reflexivity.
Qed.

(** C5. Whenever [get_area_def] reaches the area constructor, the corner
    tuple it passes is [(x2, y3, x3, y2)], where [(xi, yi)] is the
    projection of the corner point of index [i] (longitude [i],
    latitude [i]). *)
Theorem get_area_def_corner_extent (self : HDF_GHI_L1) (key : DataID)
    (pd : gmap string value) (ext : float * float * float * float) :
  area_def_args float_of_string Proj self key = Ok (pd, ext) ->
  get_area_def AreaDefinition float_of_string Proj get_area_definition self key
    = get_area_definition pd ext
  /\ exists c_lons c_lats lon2 lat2 lon3 lat3 proj_dict p,
       file_content self !! "/attr/Corner-Point Longitudes" = Some c_lons
       /\ file_content self !! "/attr/Corner-Point Latitudes" = Some c_lats
       /\ value_getitem c_lons 2 = Ok lon2 /\ value_getitem c_lats 2 = Ok lat2
       /\ value_getitem c_lons 3 = Ok lon3 /\ value_getitem c_lats 3 = Ok lat3
       /\ Proj proj_dict = Ok p
       /\ ext = (fst (p lon2 lat2), snd (p lon3 lat3),
                 fst (p lon3 lat3), snd (p lon2 lat2)).
Proof.
  intros H. split; [apply get_area_def_call; exact H|].
  apply area_def_args_Ok in H
    as (p1 & p2 & p3 & p4 & pdict & proj_dict & p & nl & nc & nl2 & nc2
        & Hc & _ & _ & Hp & _ & _ & _ & _ & _ & ->).
  apply read_corners_Ok in Hc
    as (c_lats & c_lons & Hlats & Hlons & _ & _ & _ & _ & H2x & H2y & H3x & H3y).
  exists c_lons, c_lats, (fst p3), (snd p3), (fst p4), (snd p4), proj_dict, p.
  repeat split; assumption.
Qed.

(** C7. A resolution that is not in [RESOLUTION_LIST] makes the lookup
    [RESOLUTION_LIST.index(res)] raise [ValueError]; [get_area_def] then
    raises before the arguments of the area constructor exist, and the
    exception is that [ValueError] whenever the corner points and line
    numbers were read.  Each resolution of the list is found, at an
    index from 0 to 3. *)
Theorem get_area_def_unsupported_resolution (self : HDF_GHI_L1) (key : DataID) :
  resolution key ∉ RESOLUTION_LIST ->
  list_index RESOLUTION_LIST (resolution key) = Raise ValueError
  /\ (exists e,
        area_def_args float_of_string Proj self key = Raise e
        /\ get_area_def AreaDefinition float_of_string Proj get_area_definition
             self key = Raise e
        /\ (is_Ok (read_corners self) -> e = ValueError))
  /\ (forall r, r ∈ RESOLUTION_LIST ->
        exists i, list_index RESOLUTION_LIST r = Ok i /\ 0 <= i < 4).
Proof.
  intros Hres. pose proof (list_index_absent _ _ Hres) as Hidx.
  split; [exact Hidx|]. split; [|apply list_index_supported].
  unfold get_area_def, area_def_args.
  destruct (read_corners self) as [[[[p1 p2] p3] p4]|e] eqn:Hc; simpl.
  - unfold build_pdict. rewrite Hidx. simpl.
    exists ValueError. repeat split.
  - exists e. repeat split. intros [c Hok]. discriminate.
Qed.

(** C8 (as amended).  The row and column counts come from the
    [RegLength] and [RegWidth] attributes (not from the begin and end
    line and pixel numbers): one is subtracted before the projection is
    built, one is added back before the area constructor is called, and
    for integer attributes the constructor receives the attribute values
    unchanged. *)
Theorem get_area_def_counts_from_reg_attrs (self : HDF_GHI_L1) (key : DataID)
    (pd : gmap string value) (ext : float * float * float * float) :
  area_def_args float_of_string Proj self key = Ok (pd, ext) ->
  get_area_def AreaDefinition float_of_string Proj get_area_definition self key
    = get_area_definition pd ext
  /\ (exists nl nl' nl'' nc nc' nc'',
        file_content self !! "/attr/RegLength" = Some nl
        /\ value_binop num_sub nl (VNum (NInt 1)) = Ok nl'
        /\ value_binop num_add nl' (VNum (NInt 1)) = Ok nl''
        /\ pd !! "nlines" = Some nl''
        /\ file_content self !! "/attr/RegWidth" = Some nc
        /\ value_binop num_sub nc (VNum (NInt 1)) = Ok nc'
        /\ value_binop num_add nc' (VNum (NInt 1)) = Ok nc''
        /\ pd !! "ncols" = Some nc'')
  /\ (forall n : Z, file_content self !! "/attr/RegLength" = Some (VNum (NInt n)) ->
        pd !! "nlines" = Some (VNum (NInt n)))
  /\ (forall m : Z, file_content self !! "/attr/RegWidth" = Some (VNum (NInt m)) ->
        pd !! "ncols" = Some (VNum (NInt m))).
Proof.
  intros H. split; [apply get_area_def_call; exact H|].
  apply area_def_args_Ok in H
    as (p1 & p2 & p3 & p4 & pdict & proj_dict & p & nl1 & nc1 & nl2 & nc2
        & _ & Hpd & _ & _ & Hnl1 & Hnc1 & Hnl2 & Hnc2 & -> & _).
  apply build_pdict_Ok in Hpd
    as (i & coff & loff & cfac & lfac & a & b & h & ssp_lon & nl & nc & cs & ls
        & a_desc & a_name & p_id & nl' & nc'
        & _ & _ & _ & _ & _ & Hnl & Hnc & Hnl' & Hnc' & ->).
  rewrite lookup_insert_ne in Hnl1 by discriminate.
  rewrite lookup_insert_eq in Hnl1. injection Hnl1 as <-.
  rewrite lookup_insert_eq in Hnc1. injection Hnc1 as <-.
  assert (Hlines : forall m : gmap string value,
            <["ncols" := nc2]> (<["nlines" := nl2]> m) !! "nlines" = Some nl2).
  { intros m. rewrite lookup_insert_ne by discriminate. apply lookup_insert_eq. }
  rewrite Hlines, lookup_insert_eq.
  split; [|split].
  - exists nl, nl', nl2, nc, nc', nc2. repeat split; assumption.
  - intros n Hn. rewrite Hnl in Hn. injection Hn as ->.
    simpl in Hnl'. injection Hnl' as <-.
    simpl in Hnl2. injection Hnl2 as <-. do 3 f_equal. lia.
  - intros m Hm. rewrite Hnc in Hm. injection Hm as ->.
    simpl in Hnc'. injection Hnc' as <-.
    simpl in Hnc2. injection Hnc2 as <-. do 3 f_equal. lia.
Qed.

(** C10. Whenever [get_area_def] reaches the area constructor, the
    resolution stands at some position [i] of [RESOLUTION_LIST], and with
    [c] the entry of [_COFF_list] at [i] and [f] the entry of [_CFAC_list]
    at [i], which are also the entries of [_LOFF_list] and [_LFAC_list]
    at [i]: [coff] is [c], [loff] is the negation [- c], and [cfac] and
    [lfac] are both [f], not negated.  So 250 m gives 21982.5, -21982.5
    and 163730198; 500 m gives 10991.5, -10991.5 and 81865099; 1000 m
    gives 5495.5, -5495.5 and 40932549; 2000 m gives 2747.5, -2747.5 and
    20466274. *)
Theorem get_area_def_offsets_and_factors (self : HDF_GHI_L1) (key : DataID)
    (pd : gmap string value) (ext : float * float * float * float) :
  area_def_args float_of_string Proj self key = Ok (pd, ext) ->
  exists (i : nat) (c f : float),
    RESOLUTION_LIST !! i = Some (resolution key)
    /\ _COFF_list !! i = Some c /\ _LOFF_list !! i = Some c
    /\ _CFAC_list !! i = Some f /\ _LFAC_list !! i = Some f
    /\ pd !! "coff" = Some (VNum (NFloat c))
    /\ pd !! "loff" = Some (VNum (NFloat (- c)))
    /\ pd !! "cfac" = Some (VNum (NFloat f))
    /\ pd !! "lfac" = Some (VNum (NFloat f))
    /\ (resolution key, c, f)
       ∈ [(250, 21982.5%float, 163730198%float);
          (500, 10991.5%float, 81865099%float);
          (1000, 5495.5%float, 40932549%float);
          (2000, 2747.5%float, 20466274%float)].
Proof.
  intros H.
  apply area_def_args_Ok in H
    as (p1 & p2 & p3 & p4 & pdict & proj_dict & p & nl1 & nc1 & nl2 & nc2
        & _ & Hpd & _ & _ & _ & _ & _ & _ & -> & _).
  apply build_pdict_Ok in Hpd
    as (i & coff & loff & cfac & lfac & a & b & h & ssp_lon & nl & nc & cs & ls
        & a_desc & a_name & p_id & nl' & nc'
        & Hi & Hcoff & Hloff & Hcfac & Hlfac & _ & _ & _ & _ & ->).
  apply list_index_resolution in Hi.
  destruct Hi as [[Hr ->]|[[Hr ->]|[[Hr ->]|[Hr ->]]]];
    vm_compute in Hcoff, Hloff, Hcfac, Hlfac;
    injection Hcoff as <-; injection Hloff as <-;
    injection Hcfac as <-; injection Hlfac as <-;
    [exists 0%nat | exists 1%nat | exists 2%nat | exists 3%nat];
    eexists; eexists; rewrite Hr;
    (split; [reflexivity|]); (split; [reflexivity|]); (split; [reflexivity|]);
    (split; [reflexivity|]); (split; [reflexivity|]);
    (split; [rewrite !lookup_insert_ne by discriminate; apply lookup_insert_eq|]);
    (split; [rewrite !lookup_insert_ne by discriminate; apply lookup_insert_eq|]);
    (split; [rewrite !lookup_insert_ne by discriminate; apply lookup_insert_eq|]);
    (split; [rewrite !lookup_insert_ne by discriminate; apply lookup_insert_eq|]).
  - apply list_elem_of_here.
  - apply list_elem_of_further, list_elem_of_here.
  - do 2 apply list_elem_of_further. apply list_elem_of_here.
  - do 3 apply list_elem_of_further. apply list_elem_of_here.
Qed.

End AreaProperties.

(** ** The model run on the sample file *)

Lemma from_Ok_pair {A B} (d : A * B) (r : result (A * B)) :
  is_Ok_b r = true -> r = Ok (fst (from_Ok d r), snd (from_Ok d r)).
Proof.
  destruct r as [[a b]|e]; simpl; [reflexivity | discriminate].
Qed.

Lemma apply_lut_raises_at_length_plus_one_witness :
  apply_lut Sample.raw_ir Sample.lut = Raise IndexError.
Proof.
  apply (apply_lut_raises_at_length_plus_one Sample.raw_ir Sample.lut).
  vm_compute. do 2 apply list_elem_of_further. apply list_elem_of_here.
Defined.

Lemma calibrate_reflectance_masks_with_raw_range_witness :
  Run.ds_reflectance !! "calibration" = Some (VStr "reflectance")
  /\ calibrate Sample.format_value Sample.file Sample.raw Run.ds_reflectance
       "C02" "Data/NOMChannel02"
     = Ok (fst Run.reflectance, snd Run.reflectance)
  /\ attrs (fst Run.reflectance) !! "valid_range" = Some (VArr [NInt 0; NInt 4095])
  /\ snd Run.reflectance !! "valid_range"
     = Some (VArr [NFloat 0; NFloat 399.90234375])
  /\ elements (data Sample.raw) !! 1%nat = Some (NInt 5000)
  /\ elements (data (fst Run.reflectance)) !! 1%nat = Some (NFloat 488.28125)
  /\ is_nan 488.28125 = false
  /\ (488.28125 <=? 399.90234375)%float = false.
Proof.
  assert (H1 : Run.ds_reflectance !! "calibration" = Some (VStr "reflectance"))
    by (vm_compute; reflexivity).
  assert (H2 : calibrate Sample.format_value Sample.file Sample.raw
                 Run.ds_reflectance "C02" "Data/NOMChannel02"
               = Ok (fst Run.reflectance, snd Run.reflectance)).
  { apply from_Ok_pair. vm_compute. reflexivity. }
  split; [exact H1|]. split; [exact H2|].
  destruct (calibrate_reflectance_masks_with_raw_range Sample.format_value
              Sample.file Sample.raw _ Run.ds_reflectance _ "C02"
              "Data/NOMChannel02" H1 H2)
    as (d1 & raw_range & lo & hi & slope & offset & calibrated_range
        & _ & Hraw & Hout & _).
  vm_compute in Hraw. injection Hraw as <-.
  split; [exact Hout|].
  repeat split; vm_compute; reflexivity.
Defined.


Lemma calibrate_radiance_raises_witness :
  Sample.ds_info_of "radiance" "W" !! "calibration" = Some (VStr "radiance")
  /\ calibrate Sample.format_value Sample.file Sample.raw (Sample.ds_info_of "radiance" "W")
       "C02" "Data/NOMChannel02" = Raise NotImplementedError.
Proof.
  assert (H : Sample.ds_info_of "radiance" "W" !! "calibration"
              = Some (VStr "radiance")) by (vm_compute; reflexivity).
  split; [exact H|].
  exact (calibrate_radiance_raises Sample.format_value Sample.file Sample.raw _
           "C02" "Data/NOMChannel02" H).
Defined.

Lemma get_area_def_corner_extent_witness :
  area_def_args Sample.float_of_string Sample.Proj Sample.file (mkDataID "C02" 500)
    = Ok (fst (Run.area_args 4000), snd (Run.area_args 4000))
  /\ snd (Run.area_args 4000) = (82000, 24000, 128000, 20000)%float
  /\ get_area_def Sample.AreaDefinition Sample.float_of_string Sample.Proj
       Sample.get_area_definition Sample.file (mkDataID "C02" 500)
     = Sample.get_area_definition (fst (Run.area_args 4000)) (snd (Run.area_args 4000)).
Proof.
  assert (H : area_def_args Sample.float_of_string Sample.Proj Sample.file
                (mkDataID "C02" 500)
              = Ok (fst (Run.area_args 4000), snd (Run.area_args 4000))).
  { apply from_Ok_pair. vm_compute. reflexivity. }
  split; [exact H|]. split; [vm_compute; reflexivity|].
  exact (proj1 (get_area_def_corner_extent Sample.float_of_string Sample.Proj
                  Sample.get_area_definition Sample.file (mkDataID "C02" 500)
                  _ _ H)).
Defined.

Lemma get_area_def_unsupported_resolution_witness :
  (resolution (mkDataID "C02" 300) ∉ RESOLUTION_LIST)
  /\ get_area_def Sample.AreaDefinition Sample.float_of_string Sample.Proj
       Sample.get_area_definition Sample.file (mkDataID "C02" 300)
     = Raise ValueError.
Proof.
  assert (H : resolution (mkDataID "C02" 300) ∉ RESOLUTION_LIST).
  { apply (bool_decide_unpack _). vm_compute. exact I. }
  split; [exact H|].
  destruct (get_area_def_unsupported_resolution Sample.float_of_string Sample.Proj
              Sample.get_area_definition Sample.file (mkDataID "C02" 300) H)
    as (_ & (e & _ & He & Hkind) & _).
  rewrite He. f_equal. apply Hkind. eexists. vm_compute. reflexivity.
Defined.

(** C8 (as stated).  Two files with the same begin and end line and pixel
    numbers (0 and 3999) and different [RegLength] attributes: the area
    constructor receives 4000 lines for one and 2000 for the other. *)
Lemma get_area_def_counts_not_from_line_numbers :
  file_content (Sample.file_with 4000) !! "/attr/Begin Line Number"
    = file_content (Sample.file_with 2000) !! "/attr/Begin Line Number"
  /\ file_content (Sample.file_with 4000) !! "/attr/End Line Number"
     = file_content (Sample.file_with 2000) !! "/attr/End Line Number"
  /\ file_content (Sample.file_with 4000) !! "/attr/Begin Pixel Number"
     = file_content (Sample.file_with 2000) !! "/attr/Begin Pixel Number"
  /\ file_content (Sample.file_with 4000) !! "/attr/End Pixel Number"
     = file_content (Sample.file_with 2000) !! "/attr/End Pixel Number"
  /\ area_def_args Sample.float_of_string Sample.Proj (Sample.file_with 4000)
       (mkDataID "C02" 500)
     = Ok (fst (Run.area_args 4000), snd (Run.area_args 4000))
  /\ area_def_args Sample.float_of_string Sample.Proj (Sample.file_with 2000)
       (mkDataID "C02" 500)
     = Ok (fst (Run.area_args 2000), snd (Run.area_args 2000))
  /\ fst (Run.area_args 4000) !! "nlines" = Some (VNum (NInt 4000))
  /\ fst (Run.area_args 2000) !! "nlines" = Some (VNum (NInt 2000)).
Proof.
  do 4 (split; [vm_compute; reflexivity|]).
  do 2 (split; [apply from_Ok_pair; vm_compute; reflexivity|]).
  split; vm_compute; reflexivity.
Qed.

Lemma get_area_def_counts_from_reg_attrs_witness :
  area_def_args Sample.float_of_string Sample.Proj (Sample.file_with 2000)
    (mkDataID "C02" 500)
    = Ok (fst (Run.area_args 2000), snd (Run.area_args 2000))
  /\ fst (Run.area_args 2000) !! "nlines" = Some (VNum (NInt 2000))
  /\ fst (Run.area_args 2000) !! "ncols" = Some (VNum (NInt 4000)).
Proof.
  assert (H : area_def_args Sample.float_of_string Sample.Proj
                (Sample.file_with 2000) (mkDataID "C02" 500)
              = Ok (fst (Run.area_args 2000), snd (Run.area_args 2000))).
  { apply from_Ok_pair. vm_compute. reflexivity. }
  split; [exact H|].
  destruct (get_area_def_counts_from_reg_attrs Sample.float_of_string Sample.Proj
              Sample.get_area_definition (Sample.file_with 2000)
              (mkDataID "C02" 500) _ _ H) as (_ & _ & Hlines & Hcols).
  split; [apply Hlines | apply Hcols]; vm_compute; reflexivity.
Defined.

Lemma get_area_def_offsets_and_factors_witness :
  area_def_args Sample.float_of_string Sample.Proj Sample.file (mkDataID "C01" 250)
    = Ok (fst (Run.area_args_at 250), snd (Run.area_args_at 250))
  /\ fst (Run.area_args_at 250) !! "coff" = Some (VNum (NFloat 21982.5))
  /\ fst (Run.area_args_at 250) !! "loff" = Some (VNum (NFloat (-21982.5)))
  /\ fst (Run.area_args_at 250) !! "cfac" = Some (VNum (NFloat 163730198))
  /\ fst (Run.area_args_at 250) !! "lfac" = Some (VNum (NFloat 163730198)).
Proof.
  assert (H : area_def_args Sample.float_of_string Sample.Proj Sample.file
                (mkDataID "C01" 250)
              = Ok (fst (Run.area_args_at 250), snd (Run.area_args_at 250))).
  { apply from_Ok_pair. vm_compute. reflexivity. }
  split; [exact H|].
  destruct (get_area_def_offsets_and_factors Sample.float_of_string Sample.Proj
              Sample.file (mkDataID "C01" 250) _ _ H)
    as (i & c & f & _ & _ & _ & _ & _ & Hc & Hl & Hcf & Hlf & Hin).
  simpl in Hin.
  apply elem_of_cons in Hin as [Hin|Hin]; [injection Hin as <- <-|].
  { repeat split; assumption. }
  apply elem_of_cons in Hin as [Hin|Hin]; [discriminate|].
  apply elem_of_cons in Hin as [Hin|Hin]; [discriminate|].
  apply elem_of_cons in Hin as [Hin|Hin]; [discriminate|].
  apply elem_of_nil in Hin. destruct Hin.
Defined.

(** * Further properties *)

(** ** [apply_lut]: which digital numbers it maps, and when it raises *)

Lemma traverse_Ok_map {A B} (f : A -> result B) (g : A -> B) (l : list A) :
  (forall x, x ∈ l -> f x = Ok (g x)) -> traverse f l = Ok (map g l).
Proof.
  induction l as [|a l IH]; intros H; simpl; [reflexivity|].
  rewrite (H a) by (apply list_elem_of_here). simpl.
  rewrite IH; [reflexivity|].
  intros x Hx. apply H. apply list_elem_of_further. exact Hx.
Qed.

Lemma traverse_app {A B} (f : A -> result B) (l1 l2 : list A) :
  traverse f (l1 ++ l2)
  = (r1 ← traverse f l1; r2 ← traverse f l2; Ok (r1 ++ r2)%list).
Proof.
  induction l1 as [|a l1 IH]; simpl.
  - destruct (traverse f l2); reflexivity.
  - destruct (f a) as [y|e]; simpl; [|reflexivity].
    rewrite IH. destruct (traverse f l1) as [r1|e]; simpl; [|reflexivity].
    destruct (traverse f l2); reflexivity.
Qed.

(** Mapping block by block and then flattening is mapping the flattened
    array. *)
Lemma traverse_blocks_concat {A B} (f : A -> result B) (blocks : list (list A)) :
  (rs ← traverse (traverse f) blocks; Ok (concat rs)) = traverse f (concat blocks).
Proof.
  induction blocks as [|b bs IH]; simpl; [reflexivity|].
  rewrite traverse_app, <- IH.
  destruct (traverse f b) as [rb|e]; simpl; [|reflexivity].
  destruct (traverse (traverse f) bs) as [rs|e]; reflexivity.
Qed.

Lemma traverse_fmap {A B C} (f : B -> result C) (g : A -> B) (l : list A) :
  traverse f (map g l) = traverse (fun x => f (g x)) l.
Proof.
  induction l as [|a l IH]; simpl; [reflexivity|]. rewrite IH. reflexivity.
Qed.

Lemma traverse_ext {A B} (f g : A -> result B) (l : list A) :
  (forall x, f x = g x) -> traverse f l = traverse g l.
Proof.
  intros H. induction l as [|a l IH]; simpl; [reflexivity|].
  rewrite H, IH. reflexivity.
Qed.

(** The elements [apply_lut] returns are the elements of the input, each
    replaced and looked up on its own. *)
Lemma apply_lut_elements (d lut : DataArray) :
  (r ← apply_lut d lut; Ok (elements (data r)))
  = traverse (fun x => getitem_elem (np_append_nan lut)
                         (where_gt (Z.of_nat (length (np_append_nan lut))) x))
      (elements (data d)).
Proof.
  unfold apply_lut, map_blocks, _getitem, elements, amap.
  set (g := getitem_elem (np_append_nan lut)).
  set (w := where_gt (Z.of_nat (length (np_append_nan lut)))).
  rewrite <- traverse_blocks_concat.
  rewrite traverse_fmap.
  rewrite (traverse_ext (fun b => traverse g (map w b))
             (traverse (fun x => g (w x)))) by (intros b; apply traverse_fmap).
  destruct (traverse (traverse (fun x => g (w x))) (data d)); reflexivity.
Qed.

Lemma np_getitem_negative {A} (l : list A) (i : Z) :
  - Z.of_nat (length l) <= i < 0 ->
  exists x, l !! Z.to_nat (Z.of_nat (length l) + i) = Some x /\ np_getitem l i = Ok x.
Proof.
  intros Hi. unfold np_getitem.
  destruct (i <? 0) eqn:Hneg; [|apply Z.ltb_ge in Hneg; lia].
  replace ((0 <=? Z.of_nat (length l) + i)
           && (Z.of_nat (length l) + i <? Z.of_nat (length l)))%bool with true.
  2:{ symmetry. apply andb_true_iff. split; [apply Z.leb_le|apply Z.ltb_lt]; lia. }
  destruct (lookup_lt_is_Some_2 l (Z.to_nat (Z.of_nat (length l) + i)))
    as [x Hx]; [lia|].
  exists x. rewrite Hx. split; reflexivity.
Qed.

Lemma np_getitem_too_small {A} (l : list A) (i : Z) :
  i < - Z.of_nat (length l) -> np_getitem l i = Raise IndexError.
Proof.
  intros Hi. unfold np_getitem.
  destruct (i <? 0) eqn:Hneg; [|apply Z.ltb_ge in Hneg; lia].
  replace (0 <=? Z.of_nat (length l) + i) with false; [reflexivity|].
  symmetry. apply Z.leb_gt. lia.
Qed.

(** A negative digital number is never replaced: it indexes the table,
    NaN included, from its end. *)
Lemma lut_elem_negative (l : list float) (v : Z) :
  v < 0 -> lut_elem l v = (y ← np_getitem (l ++ [nan]) v; Ok (NFloat y)).
Proof.
  intros Hv. unfold lut_elem, where_gt, getitem_elem.
  destruct (_ <? v) eqn:Hgt; [apply Z.ltb_lt in Hgt; lia | reflexivity].
Qed.

(** The value of every digital number that [apply_lut] maps. *)
Lemma lut_elem_mapped (l : list float) (v : Z) :
  0 <= v -> v <> Z.of_nat (length l) + 1 ->
  lut_elem l v
  = Ok (NFloat (if v <=? Z.of_nat (length l) - 1
                then nth (Z.to_nat v) l nan else nan)).
Proof.
  intros Hv Hne.
  destruct (v <=? Z.of_nat (length l) - 1) eqn:Hin.
  - apply Z.leb_le in Hin.
    destruct (lut_elem_inside l v) as [x [Hx ->]]; [lia|].
    do 2 f_equal. symmetry. apply nth_lookup_Some with (d := nan). exact Hx.
  - apply Z.leb_gt in Hin.
    destruct (Z.eq_dec v (Z.of_nat (length l))) as [->|Hne'].
    + apply lut_elem_at_length.
    + apply lut_elem_far_above. lia.
Qed.

Lemma lut_elem_value (l : list float) (v : Z) :
  - (Z.of_nat (length l) + 1) <= v -> v <> Z.of_nat (length l) + 1 ->
  lut_elem l v
  = Ok (NFloat (if v <? 0
                then nth (Z.to_nat (Z.of_nat (length l) + 1 + v)) (l ++ [nan]) nan
                else if v <=? Z.of_nat (length l) - 1
                     then nth (Z.to_nat v) l nan else nan)).
Proof.
  intros Hlo Hne. destruct (v <? 0) eqn:Hneg.
  - apply Z.ltb_lt in Hneg. rewrite lut_elem_negative by exact Hneg.
    destruct (np_getitem_negative (l ++ [nan]) v) as [x [Hx ->]].
    { rewrite length_app; simpl length. lia. }
    simpl. do 2 f_equal. symmetry.
    rewrite length_app in Hx; simpl length in Hx.
    replace (Z.of_nat (length l) + 1 + v) with (Z.of_nat (length l + 1) + v) by lia.
    apply nth_lookup_Some with (d := nan). exact Hx.
  - apply Z.ltb_ge in Hneg. apply lut_elem_mapped; assumption.
Qed.

(** X1. [apply_lut] returns for every array of integer digital numbers
    that are at least [-(n + 1)] and differ from [n + 1], [n] being the
    length of the table: a number from 0 to [n - 1] becomes its table
    entry, a larger one NaN, and a negative one the entry counted from the
    end of the table with NaN appended (so -1 becomes NaN).  Blocks,
    dimensions and attributes are those of the input. *)
Theorem apply_lut_maps_every_dn (d lut : DataArray) (vs : list (list Z)) :
  data d = map (map NInt) vs ->
  Forall (Forall (fun v => - (Z.of_nat (length (elements (data lut))) + 1) <= v
                           /\ v <> Z.of_nat (length (elements (data lut))) + 1)) vs ->
  apply_lut d lut
  = Ok (mkDataArray
          (map (map (fun v =>
             NFloat (if v <? 0
                     then nth (Z.to_nat (Z.of_nat (length (elements (data lut))) + 1 + v))
                            (np_append_nan lut) nan
                     else if v <=? Z.of_nat (length (elements (data lut))) - 1
                          then nth (Z.to_nat v) (map to_float (elements (data lut))) nan
                          else nan))) vs)
          (dims d) (attrs d)).
Proof.
  intros Hdata Hdom. unfold apply_lut, map_blocks, _getitem, amap.
  rewrite Hdata. rewrite traverse_fmap, traverse_fmap.
  erewrite traverse_Ok_map; [reflexivity|].
  intros b Hb. simpl. rewrite traverse_fmap, traverse_fmap.
  apply traverse_Ok_map. intros v Hv.
  rewrite Forall_forall in Hdom. specialize (Hdom b Hb).
  rewrite Forall_forall in Hdom. destruct (Hdom v Hv) as [Hlo Hne].
  pose proof (lut_elem_value (map to_float (elements (data lut))) v) as H.
  rewrite length_map in H. unfold lut_elem in H. apply H; assumption.
Qed.

(** [apply_lut] raises [IndexError] exactly when some element is not an
    integer, or is [n + 1], or is below [-(n + 1)]. *)
Lemma apply_lut_raises_iff_element (d lut : DataArray) :
  apply_lut d lut = Raise IndexError
  <-> exists x, x ∈ elements (data d)
        /\ match x with
           | NFloat _ => True
           | NInt v => v = Z.of_nat (length (elements (data lut))) + 1
                       \/ v < - (Z.of_nat (length (elements (data lut))) + 1)
           end.
Proof.
  split.
  - intros H.
    pose proof (apply_lut_elements d lut) as He. rewrite H in He. simpl in He.
    symmetry in He. apply traverse_Raise_inv in He as [x [Hx Hraise]].
    exists x. split; [exact Hx|].
    destruct x as [v|f]; [|exact I].
    destruct (Z.eq_dec v (Z.of_nat (length (elements (data lut))) + 1))
      as [Heq|Hne]; [left; exact Heq|].
    destruct (Z_lt_ge_dec v (- (Z.of_nat (length (elements (data lut))) + 1)))
      as [Hlt|Hge]; [right; exact Hlt|].
    pose proof (lut_elem_value (map to_float (elements (data lut))) v) as Hv.
    rewrite length_map in Hv. unfold lut_elem in Hv.
    unfold np_append_nan in Hraise. rewrite Hv in Hraise by lia. discriminate.
  - intros [x [Hx Hbad]].
    assert (Hraise : getitem_elem (np_append_nan lut)
                       (where_gt (Z.of_nat (length (np_append_nan lut))) x)
                     = Raise IndexError).
    { destruct x as [v|f]; [|reflexivity].
      pose proof (lut_elem_just_above (map to_float (elements (data lut)))) as H1.
      rewrite length_map in H1. unfold lut_elem in H1.
      destruct Hbad as [->|Hlt]; [exact H1|].
      pose proof (lut_elem_negative (map to_float (elements (data lut))) v) as H2.
      unfold lut_elem in H2. unfold np_append_nan. rewrite H2 by lia.
      rewrite np_getitem_too_small; [reflexivity|].
      rewrite length_app, length_map; simpl length. lia. }
    destruct (apply_lut_raises d lut x IndexError Hx Hraise) as [e He].
    rewrite He. f_equal. eapply apply_lut_only_IndexError. exact He.
Qed.

(** X2. For an array of integer digital numbers, [apply_lut] raises, and
    then raises [IndexError], exactly when some digital number is [n + 1]
    or is below [-(n + 1)], [n] being the length of the table. *)
Theorem apply_lut_raises_iff (d lut : DataArray) (vs : list (list Z)) :
  data d = map (map NInt) vs ->
  apply_lut d lut = Raise IndexError
  <-> exists v, v ∈ concat vs
        /\ (v = Z.of_nat (length (elements (data lut))) + 1
            \/ v < - (Z.of_nat (length (elements (data lut))) + 1)).
Proof.
  intros Hdata. rewrite apply_lut_raises_iff_element.
  unfold elements. rewrite Hdata, <- concat_map. split.
  - intros [x [Hx Hbad]]. apply list_elem_of_fmap in Hx as [v [-> Hv]].
    exists v. split; assumption.
  - intros [v [Hv Hbad]]. exists (NInt v). split; [|exact Hbad].
    apply list_elem_of_fmap. exists v. split; [reflexivity | exact Hv].
Qed.

(** X3. The elements [apply_lut] returns do not depend on how the array
    is cut in blocks: two arrays of integer digital numbers with the same
    numbers, in the same order, give the same elements, or fail alike. *)
Theorem apply_lut_chunking_independent (d1 d2 lut : DataArray)
    (vs1 vs2 : list (list Z)) :
  data d1 = map (map NInt) vs1 ->
  data d2 = map (map NInt) vs2 ->
  concat vs1 = concat vs2 ->
  (r ← apply_lut d1 lut; Ok (elements (data r)))
  = (r ← apply_lut d2 lut; Ok (elements (data r))).
Proof.
  intros H1 H2 H. rewrite !apply_lut_elements. unfold elements.
  rewrite H1, H2, <- !concat_map, H. reflexivity.
Qed.

Lemma apply_lut_maps_every_dn_witness :
  apply_lut More.dn_blocks Sample.lut
  = Ok (mkDataArray
          [[NFloat 100; NFloat 320]; [NFloat nan; NFloat nan; NFloat nan]]
          ["y"; "x"] Sample.raw_attrs).
Proof.
  rewrite (apply_lut_maps_every_dn More.dn_blocks Sample.lut More.dn_values).
  - vm_compute. reflexivity.
  - reflexivity.
  - vm_compute. repeat constructor; discriminate.
Defined.

Lemma apply_lut_raises_iff_witness :
  data Sample.raw_ir = map (map NInt) [[0; 3]; [5; 65535]]
  /\ apply_lut Sample.raw_ir Sample.lut = Raise IndexError.
Proof.
  assert (H : data Sample.raw_ir = map (map NInt) [[0; 3]; [5; 65535]])
    by reflexivity.
  split; [exact H|].
  apply (proj2 (apply_lut_raises_iff Sample.raw_ir Sample.lut _ H)).
  exists 5. split; [|left; reflexivity].
  simpl. do 2 apply list_elem_of_further. apply list_elem_of_here.
Defined.

Lemma apply_lut_chunking_independent_witness :
  (r ← apply_lut More.dn_blocks Sample.lut; Ok (elements (data r)))
  = (r ← apply_lut More.dn_rechunked Sample.lut; Ok (elements (data r))).
Proof.
  apply (apply_lut_chunking_independent More.dn_blocks More.dn_rechunked Sample.lut
           More.dn_values [[0]; [3; 4]; [65535; -1]]); reflexivity.
Defined.

(** ** [calibrate]: what it needs, what it changes, what it leaves *)

Section CalibrateFurther.

Variable format_value : value -> string.

Lemma calibrate_to_bt_Ok (self : HDF_GHI_L1) (d out : DataArray)
    (ds_info ds' : gmap string value) (ds_name : string) :
  calibrate_to_bt format_value self d ds_info ds_name = Ok (out, ds') ->
  exists lut vr,
    get self (lut_key_of format_value ds_info ds_name) = Some lut
    /\ apply_lut d lut = Ok out
    /\ attrs lut !! "valid_range" = Some vr
    /\ ds' = <["valid_range" := vr]> ds_info.
Proof.
  unfold calibrate_to_bt. intros H.
  destruct (get self (lut_key_of format_value ds_info ds_name)) as [lut|] eqn:Hget;
    [|discriminate].
  apply bind_Ok_inv in H as [r [Hr H]].
  apply bind_Ok_inv in H as [vr [Hvr H]].
  injection H as <- <-. apply getitem_Ok in Hvr.
  exists lut, vr. repeat split; assumption.
Qed.

(** The transform writes no descriptor key other than [valid_range]. *)
Lemma calibrate_transform_descriptor (self : HDF_GHI_L1) (d d1 : DataArray)
    (ds_info ds1 : gmap string value) (ds_name file_key : string) (k : string) :
  calibrate_transform format_value self d ds_info ds_name file_key = Ok (d1, ds1) ->
  k <> "valid_range" -> ds1 !! k = ds_info !! k.
Proof.
  unfold calibrate_transform. intros H Hk.
  destruct (calibration_is (ds_info !! "calibration") "counts"
            || calibration_is_None (ds_info !! "calibration"))%bool.
  { apply bind_Ok_inv in H as [units [_ H]].
    apply bind_Ok_inv in H as [vr [_ H]]. injection H as <- <-.
    apply lookup_insert_ne. congruence. }
  destruct (calibration_is (ds_info !! "calibration") "reflectance").
  { apply bind_Ok_inv in H as [n [_ H]].
    apply calibrate_to_reflectance_Ok in H
      as (t & sf & off & vr & vr1 & vr2 & _ & _ & _ & _ & _ & _ & _ & ->).
    rewrite !lookup_insert_ne by congruence. reflexivity. }
  destruct (calibration_is (ds_info !! "calibration") "brightness_temperature").
  { apply calibrate_to_bt_Ok in H as (lut & vr & _ & _ & _ & ->).
    apply lookup_insert_ne. congruence. }
  destruct (calibration_is (ds_info !! "calibration") "radiance"); [discriminate|].
  injection H as <- <-. reflexivity.
Qed.

(** The transform leaves the array's attributes as they are, except
    [units], [scale_factor] and [add_offset]. *)
Lemma calibrate_transform_attrs (self : HDF_GHI_L1) (d d1 : DataArray)
    (ds_info ds1 : gmap string value) (ds_name file_key : string) (k : string) :
  calibrate_transform format_value self d ds_info ds_name file_key = Ok (d1, ds1) ->
  k <> "units" -> k <> "scale_factor" -> k <> "add_offset" ->
  attrs d1 !! k = attrs d !! k.
Proof.
  unfold calibrate_transform. intros H Hu Hs Ho.
  destruct (calibration_is (ds_info !! "calibration") "counts"
            || calibration_is_None (ds_info !! "calibration"))%bool.
  { apply bind_Ok_inv in H as [units [_ H]].
    apply bind_Ok_inv in H as [vr [_ H]]. injection H as <- <-. simpl.
    apply lookup_insert_ne. congruence. }
  destruct (calibration_is (ds_info !! "calibration") "reflectance").
  { apply bind_Ok_inv in H as [n [_ H]].
    apply calibrate_to_reflectance_Ok in H
      as (t & sf & off & vr & vr1 & vr2 & _ & _ & _ & -> & _). simpl.
    rewrite !lookup_insert_ne by congruence. reflexivity. }
  destruct (calibration_is (ds_info !! "calibration") "brightness_temperature").
  { apply calibrate_to_bt_Ok in H as (lut & vr & _ & Hr & _ & _).
    apply apply_lut_elementwise in Hr as (_ & -> & _). reflexivity. }
  destruct (calibration_is (ds_info !! "calibration") "radiance"); [discriminate|].
  injection H as <- <-. reflexivity.
Qed.

(** What the last step of [calibrate] does to the array. *)
Lemma calibrate_Ok (self : HDF_GHI_L1) (d out : DataArray)
    (ds_info ds' : gmap string value) (ds_name file_key : string) :
  calibrate format_value self d ds_info ds_name file_key = Ok (out, ds') ->
  exists d1,
    calibrate_transform format_value self d ds_info ds_name file_key = Ok (d1, ds')
    /\ (if calibration_is (ds_info !! "calibration") "counts"
        then attach_fill_value d1 = Ok out
        else apply_range_limits d1 = Ok out).
Proof.
  unfold calibrate. intros H.
  apply bind_Ok_inv in H as [[d1 ds1] [Hstep H]].
  exists d1.
  destruct (calibration_is (ds_info !! "calibration") "counts"); simpl in H;
    apply bind_Ok_inv in H as [d2 [Hd2 H]]; injection H as <- <-;
    split; assumption.
Qed.

(** X4. [calibrate] changes no entry of the descriptor other than
    [valid_range]: every other key holds after the call what it held
    before, and a key that was absent stays absent. *)
Theorem calibrate_descriptor_frame (self : HDF_GHI_L1) (d out : DataArray)
    (ds_info ds' : gmap string value) (ds_name file_key : string) (k : string) :
  calibrate format_value self d ds_info ds_name file_key = Ok (out, ds') ->
  k <> "valid_range" ->
  ds' !! k = ds_info !! k.
Proof.
  intros H Hk. apply calibrate_Ok in H as (d1 & Hstep & _).
  eapply calibrate_transform_descriptor; eassumption.
Qed.

(** X5. [calibrate] leaves every attribute of the array as it was, except
    [units], [scale_factor], [add_offset] and [_FillValue]. *)
Theorem calibrate_attrs_frame (self : HDF_GHI_L1) (d out : DataArray)
    (ds_info ds' : gmap string value) (ds_name file_key : string) (k : string) :
  calibrate format_value self d ds_info ds_name file_key = Ok (out, ds') ->
  k <> "units" -> k <> "scale_factor" -> k <> "add_offset" -> k <> "_FillValue" ->
  attrs out !! k = attrs d !! k.
Proof.
  intros H Hu Hs Ho Hf. apply calibrate_Ok in H as (d1 & Hstep & Hlast).
  rewrite <- (calibrate_transform_attrs _ _ _ _ _ _ _ k Hstep Hu Hs Ho).
  destruct (calibration_is (ds_info !! "calibration") "counts").
  - unfold attach_fill_value in Hlast.
    apply bind_Ok_inv in Hlast as [fv [_ Hlast]].
    apply bind_Ok_inv in Hlast as [fv' [_ Hlast]].
    injection Hlast as <-. simpl. apply lookup_insert_ne. congruence.
  - apply apply_range_limits_Ok in Hlast as (vr & lo & hi & _ & _ & _ & ->).
    reflexivity.
Qed.

(** X6. A raw array without a [valid_range] attribute cannot be
    calibrated: whatever the calibration kind, the handler and the
    descriptor, [calibrate] raises. *)
Theorem calibrate_requires_valid_range (self : HDF_GHI_L1) (d : DataArray)
    (ds_info : gmap string value) (ds_name file_key : string) :
  attrs d !! "valid_range" = None ->
  exists e, calibrate format_value self d ds_info ds_name file_key = Raise e.
Proof.
  intros Hnone.
  destruct (calibrate format_value self d ds_info ds_name file_key) as [[out ds']|e] eqn:H;
    [|eauto].
  exfalso. apply calibrate_Ok in H as (d1 & Hstep & Hlast).
  assert (Hraw : attrs d1 !! "valid_range" = None).
  { rewrite <- Hnone.
    eapply calibrate_transform_attrs; [exact Hstep | discriminate..]. }
  destruct (calibration_is (ds_info !! "calibration") "counts") eqn:Hcounts.
  - unfold calibrate_transform in Hstep. rewrite Hcounts in Hstep. simpl in Hstep.
    apply bind_Ok_inv in Hstep as [units [_ Hstep]].
    apply bind_Ok_inv in Hstep as [vr [Hvr _]].
    apply getitem_Ok in Hvr. simpl in Hvr.
    rewrite lookup_insert_ne in Hvr by discriminate. congruence.
  - apply apply_range_limits_Ok in Hlast as (vr & lo & hi & Hvr & _).
    congruence.
Qed.

Lemma calibration_is_eq (c : option value) (s : string) :
  calibration_is c s = true <-> c = Some (VStr s).
Proof.
  unfold calibration_is. destruct c as [[s'|n|l]|]; split; try discriminate.
  - intros H. apply String.eqb_eq in H. congruence.
  - intros [= ->]. apply String.eqb_refl.
Qed.

(** X7. For brightness temperature, when [calibrate] returns: the lookup
    table is the dataset [Calibration/<lut_key>], [lut_key] being the
    descriptor's entry of that name or else the dataset name (an entry
    that is not a string enters the key as its text); the array is the
    output of [apply_lut] on the raw array, with the range limits
    applied; and the descriptor's valid range is the table's own
    [valid_range] attribute, not the raw array's. *)
Theorem calibrate_bt_uses_lut_valid_range (self : HDF_GHI_L1) (d out : DataArray)
    (ds_info ds' : gmap string value) (ds_name file_key : string) :
  ds_info !! "calibration" = Some (VStr "brightness_temperature") ->
  calibrate format_value self d ds_info ds_name file_key = Ok (out, ds') ->
  exists key lut r vr,
    (ds_info !! "lut_key" = None /\ key = "Calibration/" +:+ ds_name
     \/ (exists s, ds_info !! "lut_key" = Some (VStr s)
                   /\ key = "Calibration/" +:+ s)
     \/ (exists v, ds_info !! "lut_key" = Some v
                   /\ (forall s, v <> VStr s)
                   /\ key = "Calibration/" +:+ format_value v))
    /\ get self key = Some lut
    /\ apply_lut d lut = Ok r
    /\ apply_range_limits r = Ok out
    /\ attrs lut !! "valid_range" = Some vr
    /\ ds' !! "valid_range" = Some vr
    /\ attrs out !! "valid_range" = attrs d !! "valid_range".
Proof.
  intros Hcal H. apply calibrate_Ok in H as (d1 & Hstep & Hlast).
  unfold calibrate_transform in Hstep. rewrite Hcal in Hstep, Hlast.
  simpl in Hstep, Hlast.
  apply calibrate_to_bt_Ok in Hstep as (lut & vr & Hget & Hr & Hvr & ->).
  exists (lut_key_of format_value ds_info ds_name), lut, d1, vr.
  repeat split; try assumption.
  - unfold lut_key_of.
    destruct (ds_info !! "lut_key") as [[s|n|l]|].
    + right. left. exists s. split; reflexivity.
    + right. right. exists (VNum n). repeat split. discriminate.
    + right. right. exists (VArr l). repeat split. discriminate.
    + left. split; reflexivity.
  - apply lookup_insert_eq.
  - apply apply_range_limits_Ok in Hlast as (vr0 & lo & hi & _ & _ & _ & ->).
    simpl. apply apply_lut_elementwise in Hr as (_ & -> & _). reflexivity.
Qed.

(** X8. With no calibration in the descriptor, when [calibrate] returns:
    the data are the raw data under the range limits of the raw array's
    own [valid_range] (an element between the minimum and the maximum of
    that range is kept with its value, as a floating-point number, and
    every other element becomes NaN); the array takes its [units] from
    the descriptor; and the descriptor takes its valid range from the
    array. *)
Theorem calibrate_without_calibration (self : HDF_GHI_L1) (d out : DataArray)
    (ds_info ds' : gmap string value) (ds_name file_key : string) :
  ds_info !! "calibration" = None ->
  calibrate format_value self d ds_info ds_name file_key = Ok (out, ds') ->
  exists units vr lo hi,
    ds_info !! "units" = Some units
    /\ attrs d !! "valid_range" = Some vr
    /\ py_min vr = Ok lo /\ py_max vr = Ok hi
    /\ out = mkDataArray
               (map (map (fun x => if (num_leb lo x && num_leb x hi)%bool
                                   then NFloat (to_float x) else NFloat nan))
                  (data d))
               (dims d) (<["units" := units]> (attrs d))
    /\ ds' = <["valid_range" := vr]> ds_info.
Proof.
  intros Hcal H. apply calibrate_Ok in H as (d1 & Hstep & Hlast).
  unfold calibrate_transform in Hstep. rewrite Hcal in Hstep, Hlast.
  simpl in Hstep, Hlast.
  apply bind_Ok_inv in Hstep as [units [Hu Hstep]].
  apply bind_Ok_inv in Hstep as [vr [Hvr Hstep]].
  injection Hstep as <- <-.
  apply getitem_Ok in Hu, Hvr. simpl in Hvr.
  rewrite lookup_insert_ne in Hvr by discriminate.
  apply apply_range_limits_Ok in Hlast as (vr0 & lo & hi & Hvr0 & Hlo & Hhi & ->).
  simpl in Hvr0. rewrite lookup_insert_ne in Hvr0 by discriminate.
  rewrite Hvr in Hvr0. injection Hvr0 as <-.
  exists units, vr, lo, hi. repeat split; assumption.
Qed.

(** X9. A calibration kind the reader does not know (a string other than
    counts, reflectance, brightness_temperature and radiance) is not
    rejected: [calibrate] applies no transform, leaves the descriptor as
    it is, and only applies the range limits of the raw array. *)
Theorem calibrate_unknown_kind_only_limits (self : HDF_GHI_L1) (d : DataArray)
    (ds_info : gmap string value) (ds_name file_key kind : string) :
  ds_info !! "calibration" = Some (VStr kind) ->
  kind <> "counts" -> kind <> "reflectance" ->
  kind <> "brightness_temperature" -> kind <> "radiance" ->
  calibrate format_value self d ds_info ds_name file_key
  = (out ← apply_range_limits d; Ok (out, ds_info)).
Proof.
  intros Hcal H1 H2 H3 H4.
  assert (Hno : forall s, kind <> s ->
                  calibration_is (ds_info !! "calibration") s = false).
  { intros s Hs. destruct (calibration_is (ds_info !! "calibration") s) eqn:E;
      [|reflexivity].
    apply calibration_is_eq in E. congruence. }
  unfold calibrate, calibrate_transform.
  rewrite !Hno by assumption. rewrite Hcal. reflexivity.
Qed.

(** X10. For reflectance with a coefficient table of [m] rows, [m] not
    being 1, a storage key whose last two characters [int] reads as the
    number [n], with [n - 1 >= m] (or [n - 1 < -m]), makes [calibrate]
    raise [IndexError]: only a table of one row serves every channel. *)
Theorem calibrate_reflectance_channel_out_of_table (self : HDF_GHI_L1)
    (d : DataArray) (t : CoefTable) (ds_info : gmap string value)
    (ds_name file_key : string) (n : Z) :
  ds_info !! "calibration" = Some (VStr "reflectance") ->
  py_int (last2 file_key) = Ok n ->
  calibration_coef self = Some t ->
  length (coef_rows t) <> 1%nat ->
  Z.of_nat (length (coef_rows t)) <= n - 1
  \/ n - 1 < - Z.of_nat (length (coef_rows t)) ->
  calibrate format_value self d ds_info ds_name file_key = Raise IndexError.
Proof.
  intros Hcal Hint Hget Hrows Hout.
  unfold calibrate, calibrate_transform. rewrite Hcal, Hint. simpl.
  unfold calibrate_to_reflectance, get_table. rewrite Hget. simpl.
  unfold effective_channel.
  destruct (Z.of_nat (length (coef_rows t)) =? 1) eqn:E;
    [apply Z.eqb_eq in E; lia|].
  unfold table_item.
  destruct Hout as [Hhi|Hlo].
  - rewrite np_getitem_too_large by exact Hhi. reflexivity.
  - rewrite np_getitem_too_small by exact Hlo. reflexivity.
Qed.

(** X11. With a coefficient table of one row, reflectance calibration does
    not depend on the channel number in the storage key: two keys whose
    last two characters [int] reads as numbers give the same result. *)
Theorem calibrate_reflectance_single_row_any_channel (self : HDF_GHI_L1)
    (d : DataArray) (t : CoefTable) (ds_info : gmap string value)
    (ds_name key1 key2 : string) (n1 n2 : Z) :
  ds_info !! "calibration" = Some (VStr "reflectance") ->
  calibration_coef self = Some t ->
  length (coef_rows t) = 1%nat ->
  py_int (last2 key1) = Ok n1 ->
  py_int (last2 key2) = Ok n2 ->
  calibrate format_value self d ds_info ds_name key1
  = calibrate format_value self d ds_info ds_name key2.
Proof.
  intros Hcal Hget Hrows H1 H2.
  unfold calibrate, calibrate_transform. rewrite Hcal, H1, H2. simpl.
  unfold calibrate_to_reflectance, get_table. rewrite Hget. simpl.
  unfold effective_channel. rewrite Hrows. reflexivity.
Qed.

End CalibrateFurther.

(** ** [adjust_attrs] and [get_dataset] *)

Lemma adjust_attrs_Ok (self : HDF_GHI_L1) (d : DataArray)
    (ds_info : gmap string value) (out : Dataset) :
  adjust_attrs self d ds_info = Ok out ->
  exists code satname sensor sensor' lat lat' lon lon' alt alt',
    file_content self !! "/attr/Satellite Name" = Some code
    /\ platform_name_of code = Ok satname
    /\ file_content self !! "/attr/Sensor Identification Code" = Some sensor
    /\ value_lower sensor = Ok sensor'
    /\ file_content self !! "/attr/NOMSubSatLat" = Some lat /\ item lat = Ok lat'
    /\ file_content self !! "/attr/NOMSubSatLon" = Some lon /\ item lon = Ok lon'
    /\ file_content self !! "/attr/NOMSatHeight" = Some alt /\ item alt = Ok alt'
    /\ out = mkDataset (data d) (dims d)
               (delete "Slope" (delete "Intercept" (delete "FillValue"
                 (dict_update
                    (dict_update (AVal <$> attrs d)
                       (<["orbital_parameters" :=
                            ADict (<["satellite_nominal_altitude" := alt']>
                                     (<["satellite_nominal_longitude" := lon']>
                                        (<["satellite_nominal_latitude" := lat']> ∅)))]>
                          (<["sensor" := AVal sensor']>
                             (<["platform_name" := AVal satname]> ∅))))
                    (AVal <$> ds_info))))).
Proof.
  unfold adjust_attrs. intros H.
  apply bind_Ok_inv in H as [code [Hcode H]].
  apply bind_Ok_inv in H as [code' [_ H]].
  apply bind_Ok_inv in H as [satname [Hsat H]].
  apply bind_Ok_inv in H as [sensor [Hsensor H]].
  apply bind_Ok_inv in H as [sensor' [Hlower H]].
  apply bind_Ok_inv in H as [lat [Hlat H]].
  apply bind_Ok_inv in H as [lat' [Hlat' H]].
  apply bind_Ok_inv in H as [lon [Hlon H]].
  apply bind_Ok_inv in H as [lon' [Hlon' H]].
  apply bind_Ok_inv in H as [alt [Halt H]].
  apply bind_Ok_inv in H as [alt' [Halt' H]].
  injection H as <-.
  apply getitem_Ok in Hcode, Hsensor, Hlat, Hlon, Halt.
  exists code, satname, sensor, sensor', lat, lat', lon, lon', alt, alt'.
  repeat split; assumption.
Qed.

(** X12. The attributes [adjust_attrs] leaves on the array: [FillValue],
    [Intercept] and [Slope] are absent, even when the descriptor holds
    them; any other key of the descriptor carries the descriptor's value;
    and a key that is neither in the descriptor nor one of
    [platform_name], [sensor] and [orbital_parameters] carries what the
    array held before. *)
Theorem adjust_attrs_precedence (self : HDF_GHI_L1) (d : DataArray)
    (ds_info : gmap string value) (out : Dataset) (k : string) :
  adjust_attrs self d ds_info = Ok out ->
  (k ∈ ["FillValue"; "Intercept"; "Slope"] -> ds_attrs out !! k = None)
  /\ (k ∉ ["FillValue"; "Intercept"; "Slope"] ->
      forall v, ds_info !! k = Some v -> ds_attrs out !! k = Some (AVal v))
  /\ (k ∉ ["FillValue"; "Intercept"; "Slope"] ->
      ds_info !! k = None ->
      k ∉ ["platform_name"; "sensor"; "orbital_parameters"] ->
      ds_attrs out !! k = AVal <$> attrs d !! k).
Proof.
  intros H.
  apply adjust_attrs_Ok in H
    as (code & satname & sensor & sensor' & lat & lat' & lon & lon' & alt & alt'
        & _ & _ & _ & _ & _ & _ & _ & _ & _ & _ & ->).
  simpl. unfold dict_update. split; [|split].
  - rewrite !elem_of_cons, elem_of_nil. intros [->|[->|[->|[]]]].
    + rewrite lookup_delete_ne, lookup_delete_ne by discriminate.
      apply lookup_delete_eq.
    + rewrite lookup_delete_ne by discriminate. apply lookup_delete_eq.
    + apply lookup_delete_eq.
  - rewrite !not_elem_of_cons. intros (H1 & H2 & H3 & _) v Hv.
    rewrite !lookup_delete_ne by congruence.
    apply lookup_union_Some_l. rewrite lookup_fmap, Hv. reflexivity.
  - rewrite !not_elem_of_cons.
    intros (H1 & H2 & H3 & _) Hnone (H4 & H5 & H6 & _).
    rewrite !lookup_delete_ne by congruence.
    rewrite lookup_union_r by (rewrite lookup_fmap, Hnone; reflexivity).
    rewrite lookup_union_r; [apply lookup_fmap|].
    rewrite !lookup_insert_ne by congruence. apply lookup_empty.
Qed.

(** X13. What [adjust_attrs] takes from the file, when the descriptor
    does not hold these keys: [platform_name] is the display name of the
    satellite code, or the code itself when [PLATFORM_NAMES] does not
    list it; [sensor] is the sensor code in lower case; and
    [orbital_parameters] holds the three nominal values of the file. *)
Theorem adjust_attrs_from_file (self : HDF_GHI_L1) (d : DataArray)
    (ds_info : gmap string value) (out : Dataset) :
  adjust_attrs self d ds_info = Ok out ->
  ds_info !! "platform_name" = None ->
  ds_info !! "sensor" = None ->
  ds_info !! "orbital_parameters" = None ->
  exists code sensor lat lon alt,
    file_content self !! "/attr/Satellite Name" = Some code
    /\ ds_attrs out !! "platform_name"
       = Some (AVal match code with
                    | VStr s => VStr (default s (PLATFORM_NAMES !! s))
                    | _ => code
                    end)
    /\ file_content self !! "/attr/Sensor Identification Code" = Some (VStr sensor)
    /\ ds_attrs out !! "sensor" = Some (AVal (VStr (lower sensor)))
    /\ (item <$> file_content self !! "/attr/NOMSubSatLat") = Some (Ok lat)
    /\ (item <$> file_content self !! "/attr/NOMSubSatLon") = Some (Ok lon)
    /\ (item <$> file_content self !! "/attr/NOMSatHeight") = Some (Ok alt)
    /\ ds_attrs out !! "orbital_parameters"
       = Some (ADict (<["satellite_nominal_altitude" := alt]>
                        (<["satellite_nominal_longitude" := lon]>
                           (<["satellite_nominal_latitude" := lat]> ∅)))).
Proof.
  intros H Hp Hs Ho.
  apply adjust_attrs_Ok in H
    as (code & satname & sensor & sensor' & lat & lat' & lon & lon' & alt & alt'
        & Hcode & Hsat & Hsensor & Hlower & Hlat & Hlat' & Hlon & Hlon'
        & Halt & Halt' & ->).
  destruct sensor as [s|n|l]; try discriminate. injection Hlower as <-.
  exists code, s, lat', lon', alt'. simpl. unfold dict_update.
  rewrite Hlat, Hlon, Halt. simpl. rewrite Hlat', Hlon', Halt'.
  repeat split; try assumption.
  - rewrite !lookup_delete_ne by discriminate.
    rewrite lookup_union_r by (rewrite lookup_fmap, Hp; reflexivity).
    erewrite lookup_union_Some_l;
      [|rewrite !lookup_insert_ne by discriminate; apply lookup_insert_eq].
    f_equal. f_equal.
    destruct code as [c|n|l]; simpl in Hsat; try congruence.
    destruct (PLATFORM_NAMES !! c); simpl; congruence.
  - rewrite !lookup_delete_ne by discriminate.
    rewrite lookup_union_r by (rewrite lookup_fmap, Hs; reflexivity).
    erewrite lookup_union_Some_l;
      [reflexivity|rewrite lookup_insert_ne by discriminate; apply lookup_insert_eq].
  - rewrite !lookup_delete_ne by discriminate.
    rewrite lookup_union_r by (rewrite lookup_fmap, Ho; reflexivity).
    erewrite lookup_union_Some_l; [reflexivity|apply lookup_insert_eq].
Qed.

(** X14. Whether [adjust_attrs] returns depends on the file alone: it
    fails for one array and descriptor exactly when it fails for every
    other array and descriptor, and then with the same exception. *)
Theorem adjust_attrs_fails_by_file_only (self : HDF_GHI_L1) (d1 d2 : DataArray)
    (ds1 ds2 : gmap string value) :
  match adjust_attrs self d1 ds1, adjust_attrs self d2 ds2 with
  | Ok _, Ok _ => True
  | Raise e1, Raise e2 => e1 = e2
  | _, _ => False
  end.
Proof.
  unfold adjust_attrs.
  repeat match goal with
         | |- context [mbind _ ?m] =>
             lazymatch m with
             | Ok _ => fail
             | Raise _ => fail
             | _ => destruct m; simpl
             end
         end; try reflexivity; exact I.
Qed.

(** X15. The group prefix [get_dataset] puts before a storage key
    ([Data/] or [Navigation/]) keeps the last two characters of a key of
    at least two characters, so the channel number [calibrate] reads from
    the prefixed key is that of the key in the descriptor. *)
Theorem resolve_file_key_keeps_channel (file_key : string) :
  (2 <= String.length file_key)%nat ->
  last2 (resolve_file_key file_key) = last2 file_key
  /\ py_int (last2 (resolve_file_key file_key)) = py_int (last2 file_key).
Proof.
  intros Hlen.
  assert (H : last2 (resolve_file_key file_key) = last2 file_key).
  { unfold resolve_file_key.
    destruct (contains CHANS_ID file_key); [apply last2_app; exact Hlen|].
    destruct (contains SUN_ID file_key || contains SAT_ID file_key)%bool;
      [apply last2_app; exact Hlen | reflexivity]. }
  split; [exact H | rewrite H; reflexivity].
Qed.

Section GetDatasetProperties.

Variable rename : DataArray -> list (string * string) -> result DataArray.
Variable format_value : value -> string.

Lemma get_dataset_Ok (self : HDF_GHI_L1) (dataset_id : DataID)
    (ds_info ds' : gmap string value) (out : Dataset) :
  get_dataset rename format_value self dataset_id ds_info = Ok (out, ds') ->
  exists file_key raw d0 d1,
    (ds_info !! "file_key" = None /\ file_key = name dataset_id
     \/ ds_info !! "file_key" = Some (VStr file_key))
    /\ get self (resolve_file_key file_key) = Some raw
    /\ match last_two (dims raw) with
       | Some (dy, dx) => rename raw [(dy, "y"); (dx, "x")] = Ok d0
       | None => d0 = raw
       end
    /\ calibrate format_value self d0 ds_info (name dataset_id) (resolve_file_key file_key)
       = Ok (d1, ds')
    /\ adjust_attrs self d1 ds' = Ok out.
Proof.
  unfold get_dataset. intros H.
  apply bind_Ok_inv in H as [file_key [Hkey H]].
  destruct (get self (resolve_file_key file_key)) as [raw|] eqn:Hget;
    [|discriminate].
  apply bind_Ok_inv in H as [d0 [Hd0 H]].
  apply bind_Ok_inv in H as [[d1 ds1] [Hcal H]].
  apply bind_Ok_inv in H as [o [Hadj H]].
  injection H as <- <-.
  exists file_key, raw, d0, d1. repeat split; try assumption.
  - destruct (ds_info !! "file_key") as [[s|n|l]|]; try discriminate;
      injection Hkey as <-; [right|left]; auto.
  - destruct (last_two (dims raw)) as [[dy dx]|]; [exact Hd0|].
    injection Hd0 as <-. reflexivity.
Qed.

(** X16. The dataset [get_dataset] returns carries the descriptor as
    [calibrate] left it: every key of the descriptor other than
    [FillValue], [Intercept] and [Slope] is an attribute with the
    descriptor's value, the valid range calibration wrote included; and
    the descriptor itself differs from the one passed in at most in
    [valid_range]. *)
Theorem get_dataset_carries_descriptor (self : HDF_GHI_L1) (dataset_id : DataID)
    (ds_info ds' : gmap string value) (out : Dataset) (k : string) :
  get_dataset rename format_value self dataset_id ds_info = Ok (out, ds') ->
  k ∉ ["FillValue"; "Intercept"; "Slope"] ->
  (forall v, ds' !! k = Some v -> ds_attrs out !! k = Some (AVal v))
  /\ (k <> "valid_range" -> ds' !! k = ds_info !! k).
Proof.
  intros H Hk.
  apply get_dataset_Ok in H
    as (file_key & raw & d0 & d1 & _ & _ & _ & Hcal & Hadj).
  split.
  - intros v Hv.
    apply adjust_attrs_Ok in Hadj
      as (code & satname & sensor & sensor' & lat & lat' & lon & lon' & alt & alt'
          & _ & _ & _ & _ & _ & _ & _ & _ & _ & _ & ->).
    simpl. unfold dict_update.
    rewrite !not_elem_of_cons in Hk. destruct Hk as (H1 & H2 & H3 & _).
    rewrite !lookup_delete_ne by congruence.
    apply lookup_union_Some_l. rewrite lookup_fmap, Hv. reflexivity.
  - intros Hne. apply calibrate_Ok in Hcal as (d2 & Hstep & _).
    eapply calibrate_transform_descriptor; eassumption.
Qed.

(** X17. For counts, the dataset [get_dataset] returns has the fill value
    of the file under [_FillValue] and no [FillValue] attribute (unless
    the descriptor itself names a [_FillValue]); its data are those of the
    array that was calibrated. *)
Theorem get_dataset_counts_fill_value (self : HDF_GHI_L1) (dataset_id : DataID)
    (ds_info ds' : gmap string value) (out : Dataset) :
  ds_info !! "calibration" = Some (VStr "counts") ->
  ds_info !! "_FillValue" = None ->
  get_dataset rename format_value self dataset_id ds_info = Ok (out, ds') ->
  exists file_key raw d0 fv fv',
    get self (resolve_file_key file_key) = Some raw
    /\ match last_two (dims raw) with
       | Some (dy, dx) => rename raw [(dy, "y"); (dx, "x")] = Ok d0
       | None => d0 = raw
       end
    /\ attrs d0 !! "FillValue" = Some fv /\ item fv = Ok fv'
    /\ ds_attrs out !! "_FillValue" = Some (AVal fv')
    /\ ds_attrs out !! "FillValue" = None
    /\ ds_data out = data d0.
Proof.
  intros Hcal Hnofill H.
  apply get_dataset_Ok in H
    as (file_key & raw & d0 & d1 & _ & Hget & Hren & Hc & Hadj).
  pose proof Hc as Hc'. apply calibrate_Ok in Hc as (d2 & Hstep & Hlast).
  assert (Hds : ds' !! "_FillValue" = None).
  { rewrite <- Hnofill.
    eapply calibrate_transform_descriptor; [exact Hstep | discriminate]. }
  unfold calibrate_transform in Hstep. rewrite Hcal in Hstep, Hlast.
  simpl in Hstep, Hlast.
  apply bind_Ok_inv in Hstep as [units [_ Hstep]].
  apply bind_Ok_inv in Hstep as [vr [_ Hstep]].
  injection Hstep as <- Hds'.
  unfold attach_fill_value in Hlast.
  apply bind_Ok_inv in Hlast as [fv [Hfv Hlast]].
  apply bind_Ok_inv in Hlast as [fv' [Hitem Hlast]].
  injection Hlast as <-.
  apply getitem_Ok in Hfv. simpl in Hfv.
  rewrite lookup_insert_ne in Hfv by discriminate.
  apply adjust_attrs_Ok in Hadj
    as (code & satname & sensor & sensor' & lat & lat' & lon & lon' & alt & alt'
        & _ & _ & _ & _ & _ & _ & _ & _ & _ & _ & ->).
  exists file_key, raw, d0, fv, fv'. simpl. unfold dict_update.
  repeat split; try assumption.
  - rewrite !lookup_delete_ne by discriminate.
    rewrite lookup_union_r by (rewrite lookup_fmap, Hds; reflexivity).
    rewrite lookup_union_r
      by (rewrite !lookup_insert_ne by discriminate; apply lookup_empty).
    rewrite lookup_fmap, lookup_insert_eq. reflexivity.
  - rewrite !lookup_delete_ne by discriminate. apply lookup_delete_eq.
Qed.

(** X18. When the file has no dataset under the resolved storage key,
    [get_dataset] raises [AttributeError] (it asks [None] for its
    dimensions), whatever the descriptor's calibration is. *)
Theorem get_dataset_missing_dataset (self : HDF_GHI_L1) (dataset_id : DataID)
    (ds_info : gmap string value) (file_key : string) :
  (ds_info !! "file_key" = None /\ file_key = name dataset_id
   \/ ds_info !! "file_key" = Some (VStr file_key)) ->
  get self (resolve_file_key file_key) = None ->
  get_dataset rename format_value self dataset_id ds_info = Raise AttributeError.
Proof.
  intros Hkey Hget. unfold get_dataset.
  destruct Hkey as [[-> ->]| ->]; simpl; rewrite Hget; reflexivity.
Qed.

End GetDatasetProperties.

(** ** [get_area_def]: labels, required attributes, projection, success *)

Lemma read_corners_reads (self : HDF_GHI_L1) (c : (num * num) * (num * num) * (num * num) * (num * num)) :
  read_corners self = Ok c ->
  Forall (fun k => is_Some (file_content self !! k))
    ["/attr/Corner-Point Latitudes"; "/attr/Corner-Point Longitudes";
     "/attr/Begin Line Number"; "/attr/End Line Number";
     "/attr/Begin Pixel Number"; "/attr/End Pixel Number"].
Proof.
  unfold read_corners. intros H.
  apply bind_Ok_inv in H as [c_lats [Hlats H]].
  apply bind_Ok_inv in H as [c_lons [Hlons H]].
  do 8 (let x := fresh "x" in apply bind_Ok_inv in H as [x [_ H]]).
  apply bind_Ok_inv in H as [il [Hil H]].
  apply bind_Ok_inv in H as [el [Hel H]].
  apply bind_Ok_inv in H as [ic [Hic H]].
  apply bind_Ok_inv in H as [ec [Hec H]].
  apply getitem_Ok in Hlats, Hlons, Hil, Hel, Hic, Hec.
  repeat constructor; eexists; eassumption.
Qed.

Section AreaFurther.

Context {AreaDefinition : Type}.
Variable float_of_string : string -> result float.
Variable Proj : gmap string value -> result (num -> num -> float * float).
Variable get_area_definition :
  gmap string value -> float * float * float * float -> result AreaDefinition.

(** Everything [build_pdict] reads and writes. *)
Lemma build_pdict_full (self : HDF_GHI_L1) (key : DataID) (pd : gmap string value) :
  build_pdict float_of_string self key = Ok pd ->
  exists i coff loff cfac lfac va a vb b vh h vlon ssp_lon nl nc vcs cs vls ls obs nl' nc',
    list_index RESOLUTION_LIST (resolution key) = Ok i
    /\ np_getitem _COFF_list i = Ok coff /\ np_getitem _LOFF_list i = Ok loff
    /\ np_getitem _CFAC_list i = Ok cfac /\ np_getitem _LFAC_list i = Ok lfac
    /\ file_content self !! "/attr/Semi_major_axis" = Some va
    /\ value_mul va 1000 = Ok a
    /\ file_content self !! "/attr/Semi_minor_axis" = Some vb
    /\ value_mul vb 1000 = Ok b
    /\ file_content self !! "/attr/NOMSatHeight" = Some vh
    /\ value_mul vh 1000 = Ok h
    /\ file_content self !! "/attr/NOMSubSatLon" = Some vlon
    /\ py_float float_of_string vlon = Ok ssp_lon
    /\ file_content self !! "/attr/RegLength" = Some nl
    /\ file_content self !! "/attr/RegWidth" = Some nc
    /\ file_content self !! "/attr/dSamplingAngle" = Some vcs
    /\ value_mul vcs 1e-6 = Ok cs
    /\ file_content self !! "/attr/dSteppingAngle" = Some vls
    /\ value_mul vls 1e-6 = Ok ls
    /\ filename_info self !! "observation_type" = Some obs
    /\ value_binop num_sub nl (VNum (NInt 1)) = Ok nl'
    /\ value_binop num_sub nc (VNum (NInt 1)) = Ok nc'
    /\ pd = <["ncols" := nc']> (<["nlines" := nl']>
            (<["p_id" := VStr (if name_in (name key) b250 then "FY-4A, 250m"
                               else if name_in (name key) b500 then "FY-4A, 500m"
                               else "FY-4A, 2000m")]>
            (<["a_name" := VStr (obs +:+ (if name_in (name key) b250 then "_250m"
                                          else if name_in (name key) b500 then "_500m"
                                          else "_2000m"))]>
            (<["a_desc" := VStr ("AGRI " +:+ obs +:+ " area")]>
            (<["scandir" := VStr "N2S"]>
            (<["line_step_ang" := ls]> (<["col_step_ang" := cs]>
            (<["ncols" := nc]> (<["nlines" := nl]>
            (<["ssp_lon" := VNum (NFloat ssp_lon)]>
            (<["h" := h]> (<["b" := b]> (<["a" := a]>
            (<["lfac" := VNum (NFloat lfac)]> (<["cfac" := VNum (NFloat cfac)]>
            (<["loff" := VNum (NFloat (- loff))]>
            (<["coff" := VNum (NFloat coff)]> ∅))))))))))))))))).
Proof.
  unfold build_pdict. intros H.
  apply bind_Ok_inv in H as [i [Hi H]].
  apply bind_Ok_inv in H as [coff [Hcoff H]].
  apply bind_Ok_inv in H as [i1 [Hi1 H]]. rewrite Hi in Hi1. injection Hi1 as <-.
  apply bind_Ok_inv in H as [loff [Hloff H]].
  apply bind_Ok_inv in H as [i2 [Hi2 H]]. rewrite Hi in Hi2. injection Hi2 as <-.
  apply bind_Ok_inv in H as [cfac [Hcfac H]].
  apply bind_Ok_inv in H as [i3 [Hi3 H]]. rewrite Hi in Hi3. injection Hi3 as <-.
  apply bind_Ok_inv in H as [lfac [Hlfac H]].
  apply bind_Ok_inv in H as [va [Hva H]]. apply bind_Ok_inv in H as [a [Ha H]].
  apply bind_Ok_inv in H as [vb [Hvb H]]. apply bind_Ok_inv in H as [b [Hb H]].
  apply bind_Ok_inv in H as [vh [Hvh H]]. apply bind_Ok_inv in H as [h [Hh H]].
  apply bind_Ok_inv in H as [vl [Hvl H]].
  apply bind_Ok_inv in H as [ssp_lon [Hssp H]].
  apply bind_Ok_inv in H as [nl [Hnl H]]. apply bind_Ok_inv in H as [nc [Hnc H]].
  apply bind_Ok_inv in H as [vc [Hvc H]]. apply bind_Ok_inv in H as [cs [Hcs H]].
  apply bind_Ok_inv in H as [vs [Hvs H]]. apply bind_Ok_inv in H as [ls [Hls H]].
  apply bind_Ok_inv in H as [obs [Hobs H]].
  apply bind_Ok_inv in H as [pd0 [Hpd0 H]].
  apply bind_Ok_inv in H as [nl0 [Hnl0 H]].
  apply bind_Ok_inv in H as [nl' [Hnl' H]].
  apply bind_Ok_inv in H as [nc0 [Hnc0 H]].
  apply bind_Ok_inv in H as [nc' [Hnc' H]].
  injection H as <-.
  assert (Hpd : pd0 =
    <["p_id" := VStr (if name_in (name key) b250 then "FY-4A, 250m"
                      else if name_in (name key) b500 then "FY-4A, 500m"
                      else "FY-4A, 2000m")]>
      (<["a_name" := VStr (obs +:+ (if name_in (name key) b250 then "_250m"
                                    else if name_in (name key) b500 then "_500m"
                                    else "_2000m"))]>
      (<["a_desc" := VStr ("AGRI " +:+ obs +:+ " area")]>
      (<["scandir" := VStr "N2S"]>
      (<["line_step_ang" := ls]> (<["col_step_ang" := cs]>
      (<["ncols" := nc]> (<["nlines" := nl]>
      (<["ssp_lon" := VNum (NFloat ssp_lon)]>
      (<["h" := h]> (<["b" := b]> (<["a" := a]>
      (<["lfac" := VNum (NFloat lfac)]> (<["cfac" := VNum (NFloat cfac)]>
      (<["loff" := VNum (NFloat (- loff))]>
      (<["coff" := VNum (NFloat coff)]> ∅)))))))))))))))).
  { destruct (name_in (name key) b250); [|destruct (name_in (name key) b500)];
      rewrite Hobs in Hpd0; simpl in Hpd0; injection Hpd0 as <-; reflexivity. }
  subst pd0.
  apply getitem_Ok in Hva, Hvb, Hvh, Hvl, Hnl, Hnc, Hvc, Hvs, Hobs, Hnl0, Hnc0.
  rewrite !lookup_insert_ne in Hnl0 by discriminate.
  rewrite lookup_insert_eq in Hnl0. injection Hnl0 as <-.
  rewrite !lookup_insert_ne in Hnc0 by discriminate.
  rewrite lookup_insert_eq in Hnc0. injection Hnc0 as <-.
  exists i, coff, loff, cfac, lfac, va, a, vb, b, vh, h, vl, ssp_lon, nl, nc,
    vc, cs, vs, ls, obs, nl', nc'.
  repeat split; assumption.
Qed.

(** X19. The name and the projection id of the area are chosen from the
    channel name alone, whatever the requested resolution: [C01] gives
    the 250 m labels, [C02] to [C06] the 500 m labels, any other name the
    2000 m labels; the three labels are built on the observation type of
    the file name and the fixed text [FY-4A]. *)
Theorem get_area_def_labels_by_channel_name (self : HDF_GHI_L1) (key : DataID)
    (pd : gmap string value) (ext : float * float * float * float) :
  area_def_args float_of_string Proj self key = Ok (pd, ext) ->
  exists obs label,
    filename_info self !! "observation_type" = Some obs
    /\ label = (if String.eqb (name key) "C01" then "250m"
                else if existsb (String.eqb (name key))
                          ["C02"; "C03"; "C04"; "C05"; "C06"]
                     then "500m" else "2000m")
    /\ pd !! "a_desc" = Some (VStr ("AGRI " +:+ obs +:+ " area"))
    /\ pd !! "a_name" = Some (VStr (obs +:+ "_" +:+ label))
    /\ pd !! "p_id" = Some (VStr ("FY-4A, " +:+ label)).
Proof.
  intros H.
  apply area_def_args_Ok in H
    as (p1 & p2 & p3 & p4 & pdict & proj_dict & p & nl1 & nc1 & nl2 & nc2
        & _ & Hpd & _ & _ & _ & _ & _ & _ & -> & _).
  apply build_pdict_full in Hpd
    as (i & coff & loff & cfac & lfac & va & a & vb & b & vh & h & vl & ssp_lon
        & nl & nc & vc & cs & vs & ls & obs & nl' & nc'
        & _ & _ & _ & _ & _ & _ & _ & _ & _ & _ & _ & _ & _ & _ & _ & _ & _ & _ & _
        & Hobs & _ & _ & ->).
  exists obs. eexists. split; [exact Hobs|]. split; [reflexivity|].
  unfold name_in, b250, b500. simpl existsb. rewrite orb_false_r.
  repeat split; rewrite !lookup_insert_ne by discriminate;
    rewrite lookup_insert_eq; do 2 f_equal;
    destruct (String.eqb (name key) "C01"); try reflexivity;
    destruct (_ || _)%bool; reflexivity.
Qed.

(** X20. [get_area_def] needs fourteen attributes of the file: when any
    one of them is missing it raises, and the area constructor is not
    called. *)
Theorem get_area_def_missing_attribute (self : HDF_GHI_L1) (key : DataID)
    (k : string) :
  k ∈ ["/attr/Corner-Point Latitudes"; "/attr/Corner-Point Longitudes";
       "/attr/Begin Line Number"; "/attr/End Line Number";
       "/attr/Begin Pixel Number"; "/attr/End Pixel Number";
       "/attr/Semi_major_axis"; "/attr/Semi_minor_axis"; "/attr/NOMSatHeight";
       "/attr/NOMSubSatLon"; "/attr/RegLength"; "/attr/RegWidth";
       "/attr/dSamplingAngle"; "/attr/dSteppingAngle"] ->
  file_content self !! k = None ->
  exists e,
    area_def_args float_of_string Proj self key = Raise e
    /\ get_area_def AreaDefinition float_of_string Proj get_area_definition
         self key = Raise e.
Proof.
  intros Hk Hnone.
  destruct (area_def_args float_of_string Proj self key) as [[pd ext]|e] eqn:H.
  - exfalso.
    apply area_def_args_Ok in H
      as (p1 & p2 & p3 & p4 & pdict & proj_dict & p & nl1 & nc1 & nl2 & nc2
          & Hc & Hpd & _).
    apply read_corners_reads in Hc.
    apply build_pdict_full in Hpd
      as (i & coff & loff & cfac & lfac & va & a & vb & b & vh & h & vl & ssp_lon
          & nl & nc & vc & cs & vs & ls & obs & nl' & nc'
          & _ & _ & _ & _ & _ & Hva & _ & Hvb & _ & Hvh & _ & Hvl & _
          & Hnl & Hnc & Hvc & _ & Hvs & _).
    rewrite !Forall_cons in Hc.
    destruct Hc as ([? H1] & [? H2] & [? H3] & [? H4] & [? H5] & [? H6] & _).
    rewrite !elem_of_cons, elem_of_nil in Hk.
    repeat (destruct Hk as [->|Hk]; [congruence|]). exact Hk.
  - exists e. split; [reflexivity|].
    unfold get_area_def. rewrite H. reflexivity.
Qed.

(** X21. The projection [get_area_def] builds, for attributes of the
    file that are integer or float64 scalars: a geostationary projection
    with x sweep, in metres, whose semi-major axis and satellite height
    are those of the file times 1000 (the height is not reduced by the
    axis), whose central longitude is the sub-satellite longitude, and
    whose inverse flattening is [1 / (a / b - 1)], all computed in
    float64; the line and column counts take no part in it. *)
Theorem get_area_def_projection_parameters (self : HDF_GHI_L1) (key : DataID)
    (pd : gmap string value) (ext : float * float * float * float)
    (a b h lon : num) :
  area_def_args float_of_string Proj self key = Ok (pd, ext) ->
  file_content self !! "/attr/Semi_major_axis" = Some (VNum a) ->
  file_content self !! "/attr/Semi_minor_axis" = Some (VNum b) ->
  file_content self !! "/attr/NOMSatHeight" = Some (VNum h) ->
  file_content self !! "/attr/NOMSubSatLon" = Some (VNum lon) ->
  exists p,
    Proj (<["sweep" := VStr "x"]> (<["units" := VStr "m"]> (<["proj" := VStr "geos"]>
         (<["rf" := VNum (NFloat (1 / (to_float a * 1000 / (to_float b * 1000) - 1)))]>
         (<["h" := VNum (NFloat (to_float h * 1000))]>
         (<["lon_0" := VNum (NFloat (to_float lon))]>
         (<["a" := VNum (NFloat (to_float a * 1000))]> ∅))))))) = Ok p.
Proof.
  intros H Ha Hb Hh Hlon.
  apply area_def_args_Ok in H
    as (p1 & p2 & p3 & p4 & pdict & proj_dict & p & nl1 & nc1 & nl2 & nc2
        & _ & Hpd & Hpj & Hp & _).
  apply build_pdict_full in Hpd
    as (i & coff & loff & cfac & lfac & va & a' & vb & b' & vh & h' & vl & ssp_lon
        & nl & nc & vc & cs & vs & ls & obs & nl' & nc'
        & _ & _ & _ & _ & _ & Hva & Ha' & Hvb & Hb' & Hvh & Hh' & Hvl & Hssp
        & _ & _ & _ & _ & _ & _ & _ & _ & _ & ->).
  rewrite Ha in Hva. injection Hva as <-.
  rewrite Hb in Hvb. injection Hvb as <-.
  rewrite Hh in Hvh. injection Hvh as <-.
  rewrite Hlon in Hvl. injection Hvl as <-.
  simpl in Ha', Hb', Hh', Hssp.
  injection Ha' as <-. injection Hb' as <-. injection Hh' as <-.
  injection Hssp as <-.
  exists p. rewrite <- Hp. f_equal.
  unfold build_proj_dict in Hpj.
  apply bind_Ok_inv in Hpj as [x1 [E1 Hpj]].
  apply bind_Ok_inv in Hpj as [x2 [E2 Hpj]].
  apply bind_Ok_inv in Hpj as [x3 [E3 Hpj]].
  apply bind_Ok_inv in Hpj as [x4 [E4 Hpj]].
  apply bind_Ok_inv in Hpj as [x5 [E5 Hpj]].
  apply getitem_Ok in E1, E2, E3, E4, E5.
  rewrite !lookup_insert_ne in E1 by discriminate.
  rewrite lookup_insert_eq in E1. injection E1 as <-.
  rewrite !lookup_insert_ne in E2 by discriminate.
  rewrite lookup_insert_eq in E2. injection E2 as <-.
  rewrite !lookup_insert_ne in E3 by discriminate.
  rewrite lookup_insert_eq in E3. injection E3 as <-.
  rewrite !lookup_insert_ne in E4 by discriminate.
  rewrite lookup_insert_eq in E4. injection E4 as <-.
  rewrite !lookup_insert_ne in E5 by discriminate.
  rewrite lookup_insert_eq in E5. injection E5 as <-.
  simpl in Hpj. injection Hpj as <-.
  assert (H1 : Z_to_float 1 = 1%float) by (vm_compute; reflexivity).
  destruct a, b, h; simpl; rewrite H1; reflexivity.
Qed.

End AreaFurther.

Lemma bind_Ok_eq {A B} (a : A) (f : A -> result B) : Ok a ≫= f = f a.
Proof. reflexivity. Qed.

Lemma value_getitem_array (l : list num) (i : Z) :
  0 <= i < Z.of_nat (length l) -> is_Ok (value_getitem (VArr l) i).
Proof.
  intros Hi. destruct (np_getitem_inrange l i Hi) as [x [_ Hx]].
  exists x. exact Hx.
Qed.

Lemma read_corners_returns (self : HDF_GHI_L1) :
  Forall (fun k => exists l, file_content self !! k = Some (VArr l)
                             /\ (4 <= length l)%nat)
    ["/attr/Corner-Point Latitudes"; "/attr/Corner-Point Longitudes"] ->
  Forall (fun k => exists n, file_content self !! k = Some (VNum n))
    ["/attr/Begin Line Number"; "/attr/End Line Number";
     "/attr/Begin Pixel Number"; "/attr/End Pixel Number"] ->
  is_Ok (read_corners self).
Proof.
  rewrite !Forall_cons.
  intros ((lats & Hlats & Hnlat) & (lons & Hlons & Hnlon) & _)
         ((il & Hil) & (el & Hel) & (ic & Hic) & (ec & Hec) & _).
  unfold read_corners, getitem.
  rewrite Hlats, Hlons, Hil, Hel, Hic, Hec. rewrite !bind_Ok_eq.
  destruct (value_getitem_array lons 0) as [x0 ->]; [lia|].
  destruct (value_getitem_array lats 0) as [y0 ->]; [lia|].
  destruct (value_getitem_array lons 1) as [x1 ->]; [lia|].
  destruct (value_getitem_array lats 1) as [y1 ->]; [lia|].
  destruct (value_getitem_array lons 2) as [x2 ->]; [lia|].
  destruct (value_getitem_array lats 2) as [y2 ->]; [lia|].
  destruct (value_getitem_array lons 3) as [x3 ->]; [lia|].
  destruct (value_getitem_array lats 3) as [y3 ->]; [lia|].
  rewrite !bind_Ok_eq. eexists. reflexivity.
Qed.

(** One step of a run whose every call returns. *)
Ltac run_Ok :=
  repeat first
    [ rewrite bind_Ok_eq
    | erewrite (proj2 (getitem_Ok _ _ _)) by eassumption
    | erewrite (proj2 (getitem_Ok _ _ _))
        by (rewrite ?lookup_insert_ne by discriminate; apply lookup_insert_eq)
    | match goal with
      | |- context [np_getitem ?l ?i ≫= _] =>
          let x := fresh "x" in
          destruct (np_getitem_inrange l i) as [x [_ ->]]; [simpl; lia|]
      | |- context [value_binop ?f (VNum ?x) (VNum ?y) ≫= _] =>
          change (value_binop f (VNum x) (VNum y)) with (Ok (VNum (f x y)))
      | |- context [value_mul (VNum ?x) ?c ≫= _] =>
          change (value_mul (VNum x) c) with (Ok (VNum (num_mul_float x c)))
      | |- context [py_float ?g (VNum ?x) ≫= _] =>
          change (py_float g (VNum x)) with (Ok (to_float x))
      end ].

Section AreaReturns.

Context {AreaDefinition : Type}.
Variable float_of_string : string -> result float.
Variable Proj : gmap string value -> result (num -> num -> float * float).
Variable get_area_definition :
  gmap string value -> float * float * float * float -> result AreaDefinition.

Lemma build_pdict_returns (self : HDF_GHI_L1) (key : DataID) :
  Forall (fun k => exists n, file_content self !! k = Some (VNum n))
    ["/attr/Semi_major_axis"; "/attr/Semi_minor_axis"; "/attr/NOMSatHeight";
     "/attr/NOMSubSatLon"; "/attr/RegLength"; "/attr/RegWidth";
     "/attr/dSamplingAngle"; "/attr/dSteppingAngle"] ->
  is_Some (filename_info self !! "observation_type") ->
  resolution key ∈ RESOLUTION_LIST ->
  is_Ok (build_pdict float_of_string self key).
Proof.
  rewrite !Forall_cons.
  intros ((a & Ha) & (b & Hb) & (h & Hh) & (lon & Hlon) & (nl & Hnl)
          & (nc & Hnc) & (cs & Hcs) & (ls & Hls) & _) [obs Hobs] Hres.
  destruct (list_index_supported _ Hres) as [i [Hi Hrange]].
  unfold build_pdict. rewrite Hi.
  destruct (name_in (name key) b250); [|destruct (name_in (name key) b500)];
    run_Ok; eexists; reflexivity.
Qed.

(** X22. [get_area_def] reaches the area constructor whenever the file is
    well formed and the request is supported: the two corner-point
    attributes are arrays of at least four numbers, the twelve other
    attributes it reads are numeric scalars, the file name gives an
    observation type, the resolution is one of [RESOLUTION_LIST], and the
    projection library accepts the parameter dictionary that
    [get_area_def] builds for this file. *)
Theorem get_area_def_returns (self : HDF_GHI_L1) (key : DataID) :
  Forall (fun k => exists l, file_content self !! k = Some (VArr l)
                             /\ (4 <= length l)%nat)
    ["/attr/Corner-Point Latitudes"; "/attr/Corner-Point Longitudes"] ->
  Forall (fun k => exists n, file_content self !! k = Some (VNum n))
    ["/attr/Begin Line Number"; "/attr/End Line Number";
     "/attr/Begin Pixel Number"; "/attr/End Pixel Number"] ->
  Forall (fun k => exists n, file_content self !! k = Some (VNum n))
    ["/attr/Semi_major_axis"; "/attr/Semi_minor_axis"; "/attr/NOMSatHeight";
     "/attr/NOMSubSatLon"; "/attr/RegLength"; "/attr/RegWidth";
     "/attr/dSamplingAngle"; "/attr/dSteppingAngle"] ->
  is_Some (filename_info self !! "observation_type") ->
  resolution key ∈ RESOLUTION_LIST ->
  (forall pdict proj_dict,
     build_pdict float_of_string self key = Ok pdict ->
     build_proj_dict pdict = Ok proj_dict ->
     is_Ok (Proj proj_dict)) ->
  exists pd ext,
    area_def_args float_of_string Proj self key = Ok (pd, ext)
    /\ get_area_def AreaDefinition float_of_string Proj get_area_definition
         self key = get_area_definition pd ext.
Proof.
  intros Hcorners Hlines Hscalars Hobs Hres HProj.
  destruct (read_corners_returns self Hcorners Hlines) as [[[[p1 p2] p3] p4] Hc].
  destruct (build_pdict_returns self key Hscalars Hobs Hres) as [pdict Hpd].
  assert (Hargs : is_Ok (area_def_args float_of_string Proj self key)).
  { unfold area_def_args. rewrite Hc, Hpd. rewrite !bind_Ok_eq.
    pose proof Hpd as Hpd0.
    apply build_pdict_full in Hpd
      as (i & coff & loff & cfac & lfac & va & a & vb & b & vh & h & vl & ssp_lon
          & nl & nc & vc & cs & vs & ls & obs & nl' & nc'
          & _ & _ & _ & _ & _ & Hva & Ha & Hvb & Hb & Hvh & Hh & _ & _
          & Hnl & Hnc & _ & _ & _ & _ & _ & Hnl' & Hnc' & ->).
    rewrite !Forall_cons in Hscalars.
    destruct Hscalars as ((a0 & Ha0) & (b0 & Hb0) & (h0 & Hh0) & _
                          & (nl0 & Hnl0) & (nc0 & Hnc0) & _).
    rewrite Ha0 in Hva. injection Hva as <-.
    rewrite Hb0 in Hvb. injection Hvb as <-.
    rewrite Hh0 in Hvh. injection Hvh as <-.
    rewrite Hnl0 in Hnl. injection Hnl as <-.
    rewrite Hnc0 in Hnc. injection Hnc as <-.
    simpl in Ha, Hb, Hh, Hnl', Hnc'.
    injection Ha as <-. injection Hb as <-. injection Hh as <-.
    injection Hnl' as <-. injection Hnc' as <-.
    unfold build_proj_dict. run_Ok.
    match goal with
    | |- context [Proj ?d] =>
        match type of Hpd0 with
        | _ = Ok ?pdict =>
            assert (Hpj : build_proj_dict pdict = Ok d)
              by (unfold build_proj_dict; run_Ok; reflexivity);
            destruct (HProj pdict d Hpd0 Hpj) as [p ->]
        end
    end.
    run_Ok. eexists. reflexivity. }
  destruct Hargs as [[pd ext] Hargs]. exists pd, ext.
  split; [exact Hargs|].
  unfold get_area_def. rewrite Hargs. reflexivity.
Qed.

End AreaReturns.

(** ** The further properties on the sample file *)

Lemma from_Ok_eq {A} (d : A) (r : result A) :
  is_Ok_b r = true -> r = Ok (from_Ok d r).
Proof.
  destruct r as [a|e]; simpl; [reflexivity | discriminate].
Qed.

Lemma calibrate_descriptor_frame_witness :
  calibrate Sample.format_value Full.file Sample.raw (Sample.ds_info_of "reflectance" "%")
    "C02" "Data/NOMChannel02"
  = Ok (fst (Full.calibrated "reflectance"), snd (Full.calibrated "reflectance"))
  /\ snd (Full.calibrated "reflectance") !! "units"
     = Sample.ds_info_of "reflectance" "%" !! "units".
Proof.
  assert (H : calibrate Sample.format_value Full.file Sample.raw (Sample.ds_info_of "reflectance" "%")
                "C02" "Data/NOMChannel02"
              = Ok (fst (Full.calibrated "reflectance"),
                    snd (Full.calibrated "reflectance"))).
  { apply from_Ok_pair. vm_compute. reflexivity. }
  split; [exact H|].
  apply (calibrate_descriptor_frame _ _ _ _ _ _ _ _ "units" H). discriminate.
Defined.

Lemma calibrate_attrs_frame_witness :
  calibrate Sample.format_value Full.file Sample.raw (Sample.ds_info_of "counts" "%")
    "C02" "Data/NOMChannel02"
  = Ok (fst (Full.calibrated "counts"), snd (Full.calibrated "counts"))
  /\ attrs (fst (Full.calibrated "counts")) !! "FillValue"
     = attrs Sample.raw !! "FillValue".
Proof.
  assert (H : calibrate Sample.format_value Full.file Sample.raw (Sample.ds_info_of "counts" "%")
                "C02" "Data/NOMChannel02"
              = Ok (fst (Full.calibrated "counts"), snd (Full.calibrated "counts"))).
  { apply from_Ok_pair. vm_compute. reflexivity. }
  split; [exact H|].
  apply (calibrate_attrs_frame _ _ _ _ _ _ _ _ "FillValue" H); discriminate.
Defined.

Lemma calibrate_requires_valid_range_witness :
  attrs Run.no_array !! "valid_range" = None
  /\ exists e, calibrate Sample.format_value Full.file Run.no_array (Sample.ds_info_of "reflectance" "%")
                 "C02" "Data/NOMChannel02" = Raise e.
Proof.
  assert (H : attrs Run.no_array !! "valid_range" = None) by reflexivity.
  split; [exact H|].
  exact (calibrate_requires_valid_range Sample.format_value Full.file Run.no_array
           (Sample.ds_info_of "reflectance" "%") "C02" "Data/NOMChannel02" H).
Defined.

Lemma calibrate_bt_uses_lut_valid_range_witness :
  calibrate Sample.format_value Full.file More.dn_blocks (Sample.ds_info_of "brightness_temperature" "K")
    "C07" "Data/NOMChannel07"
  = Ok (fst Full.brightness_temperature, snd Full.brightness_temperature)
  /\ snd Full.brightness_temperature !! "valid_range"
     = attrs Sample.lut !! "valid_range"
  /\ attrs (fst Full.brightness_temperature) !! "valid_range"
     = attrs More.dn_blocks !! "valid_range".
Proof.
  assert (H : calibrate Sample.format_value Full.file More.dn_blocks
                (Sample.ds_info_of "brightness_temperature" "K")
                "C07" "Data/NOMChannel07"
              = Ok (fst Full.brightness_temperature,
                    snd Full.brightness_temperature)).
  { apply from_Ok_pair. vm_compute. reflexivity. }
  split; [exact H|].
  assert (Hc : Sample.ds_info_of "brightness_temperature" "K" !! "calibration"
               = Some (VStr "brightness_temperature")) by (vm_compute; reflexivity).
  destruct (calibrate_bt_uses_lut_valid_range _ _ _ _ _ _ _ _ Hc H)
    as (key & lut & r & vr & Hkey & Hget & _ & _ & Hvr & Hds & Hraw).
  split; [|exact Hraw].
  destruct Hkey as [[_ ->]|[[s [Hs _]]|[v [Hv _]]]];
    [|vm_compute in Hs; discriminate|vm_compute in Hv; discriminate].
  assert (Hg : get Full.file ("Calibration/" +:+ "C07") = Some Sample.lut)
    by (vm_compute; reflexivity).
  rewrite Hg in Hget. injection Hget as <-.
  rewrite Hds, Hvr. reflexivity.
Defined.

Lemma calibrate_without_calibration_witness :
  Full.ds_uncalibrated !! "calibration" = None
  /\ calibrate Sample.format_value Full.file Sample.raw Full.ds_uncalibrated
       "SunZenith" "Navigation/NOMSunZenith"
     = Ok (fst Full.uncalibrated, snd Full.uncalibrated)
  /\ exists vr, attrs Sample.raw !! "valid_range" = Some vr
                /\ snd Full.uncalibrated = <["valid_range" := vr]> Full.ds_uncalibrated.
Proof.
  assert (H0 : Full.ds_uncalibrated !! "calibration" = None)
    by (vm_compute; reflexivity).
  assert (H : calibrate Sample.format_value Full.file Sample.raw Full.ds_uncalibrated
                "SunZenith" "Navigation/NOMSunZenith"
              = Ok (fst Full.uncalibrated, snd Full.uncalibrated)).
  { apply from_Ok_pair. vm_compute. reflexivity. }
  split; [exact H0|]. split; [exact H|].
  destruct (calibrate_without_calibration _ _ _ _ _ _ _ _ H0 H)
    as (units & vr & lo & hi & _ & Hvr & _ & _ & _ & Hds).
  exists vr. split; assumption.
Defined.

Lemma calibrate_unknown_kind_only_limits_witness :
  Sample.ds_info_of "albedo" "%" !! "calibration" = Some (VStr "albedo")
  /\ calibrate Sample.format_value Full.file Sample.raw (Sample.ds_info_of "albedo" "%")
       "C02" "Data/NOMChannel02"
     = (out ← apply_range_limits Sample.raw; Ok (out, Sample.ds_info_of "albedo" "%")).
Proof.
  assert (H : Sample.ds_info_of "albedo" "%" !! "calibration" = Some (VStr "albedo"))
    by (vm_compute; reflexivity).
  split; [exact H|].
  apply (calibrate_unknown_kind_only_limits Sample.format_value Full.file
           Sample.raw _ "C02"
           "Data/NOMChannel02" "albedo" H); discriminate.
Defined.

Lemma calibrate_reflectance_channel_out_of_table_witness :
  py_int (last2 "Data/NOMChannel07") = Ok 7
  /\ calibration_coef Full.file = Some Sample.coef_table
  /\ calibrate Sample.format_value Full.file Sample.raw (Sample.ds_info_of "reflectance" "%")
       "C07" "Data/NOMChannel07" = Raise IndexError.
Proof.
  assert (H1 : py_int (last2 "Data/NOMChannel07") = Ok 7)
    by (vm_compute; reflexivity).
  assert (H2 : calibration_coef Full.file = Some Sample.coef_table)
    by reflexivity.
  split; [exact H1|]. split; [exact H2|].
  apply (calibrate_reflectance_channel_out_of_table Sample.format_value Full.file
           Sample.raw Sample.coef_table _ "C07" "Data/NOMChannel07" 7).
  - vm_compute. reflexivity.
  - exact H1.
  - exact H2.
  - simpl. discriminate.
  - left. simpl. lia.
Defined.

Lemma calibrate_reflectance_single_row_any_channel_witness :
  calibrate Sample.format_value Full.file_single_row Sample.raw (Sample.ds_info_of "reflectance" "%")
    "C02" "Data/NOMChannel02"
  = calibrate Sample.format_value Full.file_single_row Sample.raw (Sample.ds_info_of "reflectance" "%")
      "C02" "Data/NOMChannel07".
Proof.
  eapply (calibrate_reflectance_single_row_any_channel Sample.format_value
            Full.file_single_row Sample.raw _ _ "C02" "Data/NOMChannel02"
            "Data/NOMChannel07" 2 7).
  - vm_compute. reflexivity.
  - vm_compute. reflexivity.
  - reflexivity.
  - vm_compute. reflexivity.
  - vm_compute. reflexivity.
Defined.

Lemma adjust_attrs_precedence_witness :
  adjust_attrs Full.file Sample.raw (Sample.ds_info_of "counts" "1") = Ok Full.adjusted
  /\ ds_attrs Full.adjusted !! "FillValue" = None
  /\ ds_attrs Full.adjusted !! "units" = Some (AVal (VStr "1")).
Proof.
  assert (H : adjust_attrs Full.file Sample.raw (Sample.ds_info_of "counts" "1")
              = Ok Full.adjusted).
  { apply from_Ok_eq. vm_compute. reflexivity. }
  split; [exact H|]. split.
  - apply (proj1 (adjust_attrs_precedence _ _ _ _ "FillValue" H)).
    apply list_elem_of_here.
  - apply (proj1 (proj2 (adjust_attrs_precedence _ _ _ _ "units" H))).
    + apply (bool_decide_unpack _). vm_compute. exact I.
    + vm_compute. reflexivity.
Defined.

Lemma adjust_attrs_from_file_witness :
  adjust_attrs Full.file Sample.raw (Sample.ds_info_of "counts" "1") = Ok Full.adjusted
  /\ ds_attrs Full.adjusted !! "platform_name" = Some (AVal (VStr "FY-4B"))
  /\ ds_attrs Full.adjusted !! "sensor" = Some (AVal (VStr "ghi")).
Proof.
  assert (H : adjust_attrs Full.file Sample.raw (Sample.ds_info_of "counts" "1")
              = Ok Full.adjusted).
  { apply from_Ok_eq. vm_compute. reflexivity. }
  split; [exact H|].
  destruct (adjust_attrs_from_file _ _ _ _ H)
    as (code & sensor & lat & lon & alt & Hcode & Hp & Hsensor & Hs & _);
    try (vm_compute; reflexivity).
  vm_compute in Hcode. injection Hcode as <-.
  vm_compute in Hsensor. injection Hsensor as <-.
  split; [rewrite Hp | rewrite Hs]; vm_compute; reflexivity.
Defined.

Lemma resolve_file_key_keeps_channel_witness :
  (2 <= String.length "NOMChannel02")%nat
  /\ py_int (last2 (resolve_file_key "NOMChannel02")) = Ok 2.
Proof.
  assert (H : (2 <= String.length "NOMChannel02")%nat) by (simpl; lia).
  split; [exact H|].
  rewrite (proj2 (resolve_file_key_keeps_channel "NOMChannel02" H)).
  vm_compute. reflexivity.
Defined.

Lemma get_dataset_carries_descriptor_witness :
  get_dataset Full.rename Sample.format_value Full.file (mkDataID "C02" 500)
    (Full.ds_info_of "reflectance" "%" "NOMChannel02")
  = Ok (fst (Full.dataset "reflectance"), snd (Full.dataset "reflectance"))
  /\ ds_attrs (fst (Full.dataset "reflectance")) !! "valid_range"
     = Some (AVal (VArr [NFloat 0; NFloat 399.90234375])).
Proof.
  assert (H : get_dataset Full.rename Sample.format_value Full.file (mkDataID "C02" 500)
                (Full.ds_info_of "reflectance" "%" "NOMChannel02")
              = Ok (fst (Full.dataset "reflectance"),
                    snd (Full.dataset "reflectance"))).
  { apply from_Ok_pair. vm_compute. reflexivity. }
  split; [exact H|].
  assert (Hk : "valid_range" ∉ ["FillValue"; "Intercept"; "Slope"]).
  { apply (bool_decide_unpack _). vm_compute. exact I. }
  apply (proj1 (get_dataset_carries_descriptor Full.rename _ _ _ _ _ _
                  "valid_range" H Hk)).
  vm_compute. reflexivity.
Defined.

Lemma get_dataset_counts_fill_value_witness :
  get_dataset Full.rename Sample.format_value Full.file (mkDataID "C02" 500)
    (Full.ds_info_of "counts" "%" "NOMChannel02")
  = Ok (fst (Full.dataset "counts"), snd (Full.dataset "counts"))
  /\ ds_attrs (fst (Full.dataset "counts")) !! "FillValue" = None.
Proof.
  assert (H : get_dataset Full.rename Sample.format_value Full.file (mkDataID "C02" 500)
                (Full.ds_info_of "counts" "%" "NOMChannel02")
              = Ok (fst (Full.dataset "counts"), snd (Full.dataset "counts"))).
  { apply from_Ok_pair. vm_compute. reflexivity. }
  split; [exact H|].
  assert (Hc : Full.ds_info_of "counts" "%" "NOMChannel02" !! "calibration"
               = Some (VStr "counts")) by (vm_compute; reflexivity).
  assert (Hf : Full.ds_info_of "counts" "%" "NOMChannel02" !! "_FillValue" = None)
    by (vm_compute; reflexivity).
  destruct (get_dataset_counts_fill_value Full.rename _ _ _ _ _ _ Hc Hf H)
    as (file_key & raw & d0 & fv & fv' & _ & _ & _ & _ & _ & Hnone & _).
  exact Hnone.
Defined.

Lemma get_dataset_missing_dataset_witness :
  get Full.file (resolve_file_key "NOMChannel09") = None
  /\ get_dataset Full.rename Sample.format_value Full.file (mkDataID "C09" 500)
       (Full.ds_info_of "reflectance" "%" "NOMChannel09") = Raise AttributeError.
Proof.
  assert (H : get Full.file (resolve_file_key "NOMChannel09") = None)
    by (vm_compute; reflexivity).
  split; [exact H|].
  apply (get_dataset_missing_dataset Full.rename Sample.format_value Full.file
           (mkDataID "C09" 500)
           _ "NOMChannel09"); [|exact H].
  right. vm_compute. reflexivity.
Defined.

Lemma get_area_def_labels_by_channel_name_witness :
  area_def_args Sample.float_of_string Sample.Proj Full.file (mkDataID "C07" 500)
    = Ok (fst Full.area_args, snd Full.area_args)
  /\ fst Full.area_args !! "a_name" = Some (VStr "REGX_2000m")
  /\ fst Full.area_args !! "p_id" = Some (VStr "FY-4A, 2000m").
Proof.
  assert (H : area_def_args Sample.float_of_string Sample.Proj Full.file
                (mkDataID "C07" 500)
              = Ok (fst Full.area_args, snd Full.area_args)).
  { apply from_Ok_pair. vm_compute. reflexivity. }
  split; [exact H|].
  destruct (get_area_def_labels_by_channel_name Sample.float_of_string Sample.Proj
              Full.file (mkDataID "C07" 500) _ _ H)
    as (obs & label & Hobs & -> & _ & Hname & Hid).
  vm_compute in Hobs. injection Hobs as <-.
  split; [rewrite Hname | rewrite Hid]; vm_compute; reflexivity.
Defined.

Lemma get_area_def_missing_attribute_witness :
  file_content Full.file_without_reg_length !! "/attr/RegLength" = None
  /\ exists e,
       get_area_def Sample.AreaDefinition Sample.float_of_string Sample.Proj
         Sample.get_area_definition Full.file_without_reg_length
         (mkDataID "C07" 500) = Raise e.
Proof.
  assert (H : file_content Full.file_without_reg_length !! "/attr/RegLength" = None)
    by (vm_compute; reflexivity).
  split; [exact H|].
  assert (Hk : "/attr/RegLength"
               ∈ ["/attr/Corner-Point Latitudes"; "/attr/Corner-Point Longitudes";
                  "/attr/Begin Line Number"; "/attr/End Line Number";
                  "/attr/Begin Pixel Number"; "/attr/End Pixel Number";
                  "/attr/Semi_major_axis"; "/attr/Semi_minor_axis";
                  "/attr/NOMSatHeight"; "/attr/NOMSubSatLon"; "/attr/RegLength";
                  "/attr/RegWidth"; "/attr/dSamplingAngle"; "/attr/dSteppingAngle"]).
  { apply (bool_decide_unpack _). vm_compute. exact I. }
  destruct (get_area_def_missing_attribute Sample.float_of_string Sample.Proj
              Sample.get_area_definition Full.file_without_reg_length
              (mkDataID "C07" 500) "/attr/RegLength" Hk H) as (e & _ & He).
  exists e. exact He.
Defined.

Lemma get_area_def_projection_parameters_witness :
  area_def_args Sample.float_of_string Sample.Proj Full.file (mkDataID "C07" 500)
    = Ok (fst Full.area_args, snd Full.area_args)
  /\ exists p,
       Sample.Proj
         (<["sweep" := VStr "x"]> (<["units" := VStr "m"]> (<["proj" := VStr "geos"]>
         (<["rf" := VNum (NFloat (1 / (6378.137 * 1000 / (6356.7523 * 1000) - 1)))]>
         (<["h" := VNum (NFloat (35786 * 1000))]>
         (<["lon_0" := VNum (NFloat 133)]>
         (<["a" := VNum (NFloat (6378.137 * 1000))]> ∅))))))) = Ok p.
Proof.
  assert (H : area_def_args Sample.float_of_string Sample.Proj Full.file
                (mkDataID "C07" 500)
              = Ok (fst Full.area_args, snd Full.area_args)).
  { apply from_Ok_pair. vm_compute. reflexivity. }
  split; [exact H|].
  apply (get_area_def_projection_parameters Sample.float_of_string Sample.Proj
           Full.file (mkDataID "C07" 500) _ _
           (NFloat 6378.137) (NFloat 6356.7523) (NFloat 35786) (NFloat 133) H);
    vm_compute; reflexivity.
Defined.

(** The projection parameters always ask for the geostationary
    projection. *)
Lemma build_proj_dict_geos (pdict proj_dict : gmap string value) :
  build_proj_dict pdict = Ok proj_dict -> proj_dict !! "proj" = Some (VStr "geos").
Proof.
  unfold build_proj_dict. intros H.
  do 8 (let x := fresh "x" in apply bind_Ok_inv in H as [x [_ H]]).
  injection H as <-.
  rewrite !lookup_insert_ne by discriminate. apply lookup_insert_eq.
Qed.

Lemma get_area_def_returns_witness :
  exists pd ext,
    area_def_args Sample.float_of_string Full.Proj_geos Full.file (mkDataID "C07" 500)
      = Ok (pd, ext)
    /\ get_area_def Sample.AreaDefinition Sample.float_of_string Full.Proj_geos
         Sample.get_area_definition Full.file (mkDataID "C07" 500)
       = Sample.get_area_definition pd ext.
Proof.
  apply (get_area_def_returns Sample.float_of_string Full.Proj_geos
           Sample.get_area_definition Full.file (mkDataID "C07" 500)).
  - repeat constructor; eexists; (split; [vm_compute; reflexivity | simpl; lia]).
  - repeat constructor; eexists; vm_compute; reflexivity.
  - repeat constructor; eexists; vm_compute; reflexivity.
  - eexists. vm_compute. reflexivity.
  - apply (bool_decide_unpack _). vm_compute. exact I.
  - intros pdict proj_dict _ Hpj. unfold Full.Proj_geos.
    rewrite (build_proj_dict_geos _ _ Hpj). eexists. reflexivity.
Defined.

(** ** Two more edges of [calibrate] *)

Lemma np_getitem_wrap {A} (l : list A) (i : Z) :
  - Z.of_nat (length l) <= i < 0 ->
  np_getitem l i = np_getitem l (i + Z.of_nat (length l)).
Proof.
  intros Hi.
  destruct (np_getitem_negative l i Hi) as [x [Hx ->]].
  destruct (np_getitem_inrange l (i + Z.of_nat (length l))) as [y [Hy ->]]; [lia|].
  replace (Z.of_nat (length l) + i) with (i + Z.of_nat (length l)) in Hx by lia.
  congruence.
Qed.

(** X23. For reflectance, a channel index below zero counts the rows of
    the coefficient table from the end: a storage key that ends in [00]
    (index -1) is calibrated with the last row, as the key of the last
    channel is.  In general two keys whose last two characters [int]
    reads as numbers that differ by the number of rows [m], the smaller
    index being in [-m, 0), give the same result. *)
Theorem calibrate_reflectance_negative_channel_wraps
    (format_value : value -> string) (self : HDF_GHI_L1)
    (d : DataArray) (t : CoefTable) (ds_info : gmap string value)
    (ds_name key1 key2 : string) (n1 n2 : Z) :
  ds_info !! "calibration" = Some (VStr "reflectance") ->
  calibration_coef self = Some t ->
  py_int (last2 key1) = Ok n1 ->
  py_int (last2 key2) = Ok n2 ->
  - Z.of_nat (length (coef_rows t)) <= n1 - 1 < 0 ->
  n2 = n1 + Z.of_nat (length (coef_rows t)) ->
  calibrate format_value self d ds_info ds_name key1
  = calibrate format_value self d ds_info ds_name key2.
Proof.
  intros Hcal Hget H1 H2 Hneg ->.
  unfold calibrate, calibrate_transform. rewrite Hcal, H1, H2. simpl.
  unfold calibrate_to_reflectance, get_table. rewrite Hget. simpl.
  unfold effective_channel.
  destruct (Z.of_nat (length (coef_rows t)) =? 1); [reflexivity|].
  unfold table_item.
  rewrite (np_getitem_wrap (coef_rows t) (n1 - 1)) by exact Hneg.
  replace (n1 + Z.of_nat (length (coef_rows t)) - 1)
    with (n1 - 1 + Z.of_nat (length (coef_rows t))) by lia.
  reflexivity.
Qed.

(** X24. The range limits treat an integer [valid_range] pair as
    unordered: whichever of the two bounds comes first, an integer
    element between the smaller and the larger bound is kept with its
    value, as a floating-point number, and every other element becomes
    NaN. *)
Theorem apply_range_limits_unordered_pair (d : DataArray) (a b : Z)
    (zs : list (list Z)) :
  attrs d !! "valid_range" = Some (VArr [NInt a; NInt b]) ->
  data d = map (map NInt) zs ->
  apply_range_limits d
  = Ok (mkDataArray
          (map (map (fun z => if ((Z.min a b <=? z) && (z <=? Z.max a b))%bool
                              then NFloat (Z_to_float z) else NFloat nan)) zs)
          (dims d) (attrs d)).
Proof.
  intros Hvr Hdata. unfold apply_range_limits, getitem. rewrite Hvr. simpl.
  unfold num_gtb, num_ltb. rewrite Hdata. unfold amap. rewrite map_map.
  assert (Hmin : (if b <? a then NInt b else NInt a) = NInt (Z.min a b)).
  { destruct (b <? a) eqn:E; f_equal; [apply Z.ltb_lt in E | apply Z.ltb_ge in E];
      lia. }
  assert (Hmax : (if a <? b then NInt b else NInt a) = NInt (Z.max a b)).
  { destruct (a <? b) eqn:E; f_equal; [apply Z.ltb_lt in E | apply Z.ltb_ge in E];
      lia. }
  rewrite Hmin, Hmax. do 2 f_equal.
  apply map_ext. intros block. rewrite map_map. reflexivity.
Qed.

Lemma calibrate_reflectance_negative_channel_wraps_witness :
  calibrate Sample.format_value Full.file Sample.raw
    (Sample.ds_info_of "reflectance" "%") "C02" "Data/NOMChannel00"
  = calibrate Sample.format_value Full.file Sample.raw
      (Sample.ds_info_of "reflectance" "%") "C02" "Data/NOMChannel02".
Proof.
  apply (calibrate_reflectance_negative_channel_wraps Sample.format_value
           Full.file Sample.raw Sample.coef_table _ "C02" "Data/NOMChannel00"
           "Data/NOMChannel02" 0 2).
  - vm_compute. reflexivity.
  - reflexivity.
  - vm_compute. reflexivity.
  - vm_compute. reflexivity.
  - simpl. lia.
  - reflexivity.
Defined.

Lemma apply_range_limits_unordered_pair_witness :
  apply_range_limits
    (set_attr Sample.raw "valid_range" (VArr [NInt 4095; NInt 0]))
  = Ok (mkDataArray
          [[NFloat 100; NFloat nan]; [NFloat 4095; NFloat nan]]
          (dims Sample.raw)
          (<["valid_range" := VArr [NInt 4095; NInt 0]]> (attrs Sample.raw))).
Proof.
  rewrite (apply_range_limits_unordered_pair
             (set_attr Sample.raw "valid_range" (VArr [NInt 4095; NInt 0]))
             4095 0 [[100; 5000]; [4095; 65535]]).
  - vm_compute. reflexivity.
  - vm_compute. reflexivity.
  - reflexivity.
Defined.

(** ** The channel number read from the storage key *)

(** What [int] makes of a character followed by a decimal digit: only a
    digit, a blank or a sign may stand before the digit. *)
Lemma py_int_char_digit (c d : ascii) :
  (48 <= nat_of_ascii d <= 57)%nat ->
  py_int (String c (String d ""))
  = let v := Z.of_nat (nat_of_ascii d) - 48 in
    let n := nat_of_ascii c in
    if ((48 <=? n) && (n <=? 57))%nat then Ok (10 * (Z.of_nat n - 48) + v)
    else if bool_decide (n ∈ [9; 10; 11; 12; 13; 32; 133; 160; 43]%nat) then Ok v
    else if (n =? 45)%nat then Ok (- v)
    else Raise ValueError.
Proof.
  intros Hd. apply digit_cases in Hd.
  destruct c as [[] [] [] [] [] [] [] []];
    repeat (apply elem_of_cons in Hd as [->|Hd]);
    try (apply elem_of_nil in Hd; destruct Hd);
    vm_compute; reflexivity.
Qed.

(** X25. For reflectance, the channel number comes from the last two
    characters of the storage key.  When the last one is a decimal digit
    [d] and the one before it is the character [c]: a digit [c] gives the
    number [10 c + d]; a blank (tab, line feed, vertical tab, form feed,
    carriage return, space, next line, no-break space) or a plus sign
    gives [d]; a minus sign gives [- d]; and with any other character, a
    letter for one, [calibrate] raises [ValueError] before it reads the
    coefficient table.  In the first three cases [calibrate] is
    [calibrate_to_reflectance] at that number minus one, followed by the
    range limits. *)
Theorem calibrate_reflectance_channel_number (format_value : value -> string)
    (self : HDF_GHI_L1) (d : DataArray) (ds_info : gmap string value)
    (ds_name start : string) (c dgt : ascii) :
  let v := Z.of_nat (nat_of_ascii dgt) - 48 in
  let n := nat_of_ascii c in
  let number :=
    if ((48 <=? n) && (n <=? 57))%nat then Some (10 * (Z.of_nat n - 48) + v)
    else if bool_decide (n ∈ [9; 10; 11; 12; 13; 32; 133; 160; 43]%nat) then Some v
    else if (n =? 45)%nat then Some (- v)
    else None in
  ds_info !! "calibration" = Some (VStr "reflectance") ->
  (48 <= nat_of_ascii dgt <= 57)%nat ->
  calibrate format_value self d ds_info ds_name
    (start +:+ String c (String dgt ""))
  = match number with
    | Some k =>
        '(d1, ds1) ← calibrate_to_reflectance self d (k - 1) ds_info;
        d2 ← apply_range_limits d1; Ok (d2, ds1)
    | None => Raise ValueError
    end.
Proof.
  intros v n number Hcal Hd.
  unfold calibrate, calibrate_transform. rewrite Hcal. simpl.
  rewrite last2_app by (simpl; lia).
  change (last2 (String c (String dgt ""))) with (String c (String dgt "")).
  rewrite (py_int_char_digit c dgt Hd). fold v n. unfold number.
  destruct ((48 <=? n) && (n <=? 57))%nat.
  { simpl. destruct (calibrate_to_reflectance _ _ _ _) as [[d1 ds1]|e]; reflexivity. }
  destruct (bool_decide (n ∈ [9; 10; 11; 12; 13; 32; 133; 160; 43]%nat)).
  { simpl. destruct (calibrate_to_reflectance _ _ _ _) as [[d1 ds1]|e]; reflexivity. }
  destruct (n =? 45)%nat.
  { simpl. destruct (calibrate_to_reflectance _ _ _ _) as [[d1 ds1]|e]; reflexivity. }
  reflexivity.
Qed.

Lemma calibrate_reflectance_channel_number_witness :
  Run.ds_reflectance !! "calibration" = Some (VStr "reflectance")
  /\ (48 <= nat_of_ascii "7" <= 57)%nat
  /\ calibrate Sample.format_value Sample.file Sample.raw Run.ds_reflectance
       "C7" "C7" = Raise ValueError.
Proof.
  assert (H1 : Run.ds_reflectance !! "calibration" = Some (VStr "reflectance"))
    by (vm_compute; reflexivity).
  assert (H2 : (48 <= nat_of_ascii "7" <= 57)%nat) by (vm_compute; lia).
  split; [exact H1|]. split; [exact H2|].
  exact (calibrate_reflectance_channel_number Sample.format_value Sample.file
           Sample.raw Run.ds_reflectance "C7" "" "C"%char "7"%char H1 H2).
Defined.
